(** * Key details screen view-model (iOS, Polkadot Vault)

    Shallow embedding of [KeyDetailsView.ViewModel] from
    [ios/PolkadotVault/Screens/KeyDetails/Views/KeyDetails+ViewModel.swift].
    The view-model is a class of [@Published] fields; we model it as a record
    and every method as a function on that record.  Asynchronous service calls
    are split in two: the request (no synchronous effect on the fields) and the
    completion closure, which receives the service [Result] as an argument.
    Synchronous collaborators ([seedsMediator.removeSeed],
    [keyDetailsActionsService.navigateToPublicKey]) are functions supplied in a
    [Collaborators] record.  Fire-and-forget calls to
    [keyDetailsActionsService] are recorded in [actionLog]; the
    [dismissRequest] subject and the [onCompletion] closure are recorded in
    [dismissRequests] and [completions]. *)

From Stdlib Require Import String List Bool Arith NArith Lia.
From Stdlib Require Import Sorting.Permutation Sorting.Sorted.
Import ListNotations.
Open Scope string_scope.

(** ** Types of the Rust core as seen from Swift (fields that the view-model reads) *)

Record Address := { path : string; seedName : string }.

Record MKeysCard := { address : Address; addressKey : string; base58 : string }.

Record MSCNetworkInfo :=
  { networkTitle : string; networkLogo : string; networkSpecsKey : string }.

Record MKeyAndNetworkCard := { key : MKeysCard; network : MSCNetworkInfo }.

(** The root key card ([MAddressCard]): [base58] and [address]. *)
Record MAddressCard := { root_base58 : string; root_address : Address }.

Record MKeysNew := { root : option MAddressCard; set : list MKeyAndNetworkCard }.

(** An entry of [appState.userData.selectedNetworks] / [allNetworks];
    the Swift code reads its [key]. *)
Record MmNetwork := { network_key : string; network_title : string }.

Record MKeyDetails := { kd_qr : string; kd_network : string }.

(** ** Swift view-model types *)

Record KeySummaryViewModel := { ks_keyName : string; ks_base58 : string }.

(** Modelled from the spec: [DerivedKeyRowViewModel(_:)] and
    [MKeyAndNetworkCard.publicKeyDetails] are declared outside the source
    files; the spec only says a row carries "a precomputed display view-model
    and public-key detail string" computed from the derived-key record. *)
Record DerivedKeyRowViewModel :=
  { rv_path : string; rv_networkLogo : string; rv_base58 : string }.

Definition DerivedKeyRowViewModel_of (c : MKeyAndNetworkCard) : DerivedKeyRowViewModel :=
  {| rv_path := path (address (key c));
     rv_networkLogo := networkLogo (network c);
     rv_base58 := base58 (key c) |}.

Definition publicKeyDetails (c : MKeyAndNetworkCard) : string :=
  addressKey (key c) ++ "_" ++ networkSpecsKey (network c).

Record DerivedKeyRowModel :=
  { keyData : MKeyAndNetworkCard;
    viewModel : DerivedKeyRowViewModel;
    row_publicKeyDetails : string }.

Inductive ErrorBottomModalViewModel :=
| noNetworksAvailable
| alertError (message : string).

Module ViewState.
Inductive t := emptyState | list.
End ViewState.

Inductive OnCompletionAction := keySetDeleted.

(** Fire-and-forget calls made on [keyDetailsActionsService]. *)
Inductive KeyDetailsAction :=
| forgetKeySetAction (keyName : string).

(** Service results ([Result<Success, ServiceError>]); the error is kept as
    its [description]. *)
Inductive Result (A : Type) :=
| success (a : A)
| failure (description : string).
Arguments success {A} a.
Arguments failure {A} description.

(** Synchronous collaborators. *)
Record Collaborators :=
  { removeSeedFn : string -> bool;                            (* seedsMediator.removeSeed(seedName:) *)
    navigateToPublicKey : string -> string -> option MKeyDetails }.

(** Equality of rows ([DerivedKeyRowModel: Equatable], member-wise). *)
Definition Address_eq_dec (a b : Address) : {a = b} + {a <> b}.
Proof. decide equality; apply string_dec. Defined.
Definition MKeysCard_eq_dec (a b : MKeysCard) : {a = b} + {a <> b}.
Proof. decide equality; try apply string_dec; apply Address_eq_dec. Defined.
Definition MSCNetworkInfo_eq_dec (a b : MSCNetworkInfo) : {a = b} + {a <> b}.
Proof. decide equality; apply string_dec. Defined.
Definition MKeyAndNetworkCard_eq_dec (a b : MKeyAndNetworkCard) : {a = b} + {a <> b}.
Proof. decide equality; [apply MSCNetworkInfo_eq_dec | apply MKeysCard_eq_dec]. Defined.
Definition DerivedKeyRowViewModel_eq_dec (a b : DerivedKeyRowViewModel) : {a = b} + {a <> b}.
Proof. decide equality; apply string_dec. Defined.
Definition DerivedKeyRowModel_eq_dec (a b : DerivedKeyRowModel) : {a = b} + {a <> b}.
Proof.
  decide equality;
    [apply string_dec | apply DerivedKeyRowViewModel_eq_dec | apply MKeyAndNetworkCard_eq_dec].
Defined.

(** ** The view-model's state *)

Record ViewModel := {
  keyName : string;
  keysData : option MKeysNew;
  allNetworks : list MmNetwork;
  selectedNetworks : list MmNetwork;
  isPresentingSelectionOverlay : bool;
  isPresentingNetworkSelection : bool;
  isPresentingKeyDetails : bool;
  presentedKeyDetails : option MKeyDetails;
  presentedPublicKeyDetails : option string;
  keySummary : option KeySummaryViewModel;
  derivedKeys : list DerivedKeyRowModel;
  selectedKeys : list DerivedKeyRowModel;
  isFilteringActive : bool;
  isPresentingError : bool;
  presentableError : ErrorBottomModalViewModel;
  viewState : ViewState.t;
  removeSeed : string;
  dismissRequests : nat;
  completions : list OnCompletionAction;
  actionLog : list KeyDetailsAction
}.

Definition set_keysData (v : option MKeysNew) (s : ViewModel) : ViewModel :=
  {| keyName := keyName s; keysData := v; allNetworks := allNetworks s; selectedNetworks := selectedNetworks s; isPresentingSelectionOverlay := isPresentingSelectionOverlay s; isPresentingNetworkSelection := isPresentingNetworkSelection s; isPresentingKeyDetails := isPresentingKeyDetails s; presentedKeyDetails := presentedKeyDetails s; presentedPublicKeyDetails := presentedPublicKeyDetails s; keySummary := keySummary s; derivedKeys := derivedKeys s; selectedKeys := selectedKeys s; isFilteringActive := isFilteringActive s; isPresentingError := isPresentingError s; presentableError := presentableError s; viewState := viewState s; removeSeed := removeSeed s; dismissRequests := dismissRequests s; completions := completions s; actionLog := actionLog s |}.

Definition set_allNetworks (v : list MmNetwork) (s : ViewModel) : ViewModel :=
  {| keyName := keyName s; keysData := keysData s; allNetworks := v; selectedNetworks := selectedNetworks s; isPresentingSelectionOverlay := isPresentingSelectionOverlay s; isPresentingNetworkSelection := isPresentingNetworkSelection s; isPresentingKeyDetails := isPresentingKeyDetails s; presentedKeyDetails := presentedKeyDetails s; presentedPublicKeyDetails := presentedPublicKeyDetails s; keySummary := keySummary s; derivedKeys := derivedKeys s; selectedKeys := selectedKeys s; isFilteringActive := isFilteringActive s; isPresentingError := isPresentingError s; presentableError := presentableError s; viewState := viewState s; removeSeed := removeSeed s; dismissRequests := dismissRequests s; completions := completions s; actionLog := actionLog s |}.

Definition set_selectedNetworks (v : list MmNetwork) (s : ViewModel) : ViewModel :=
  {| keyName := keyName s; keysData := keysData s; allNetworks := allNetworks s; selectedNetworks := v; isPresentingSelectionOverlay := isPresentingSelectionOverlay s; isPresentingNetworkSelection := isPresentingNetworkSelection s; isPresentingKeyDetails := isPresentingKeyDetails s; presentedKeyDetails := presentedKeyDetails s; presentedPublicKeyDetails := presentedPublicKeyDetails s; keySummary := keySummary s; derivedKeys := derivedKeys s; selectedKeys := selectedKeys s; isFilteringActive := isFilteringActive s; isPresentingError := isPresentingError s; presentableError := presentableError s; viewState := viewState s; removeSeed := removeSeed s; dismissRequests := dismissRequests s; completions := completions s; actionLog := actionLog s |}.

Definition set_isPresentingSelectionOverlay (v : bool) (s : ViewModel) : ViewModel :=
  {| keyName := keyName s; keysData := keysData s; allNetworks := allNetworks s; selectedNetworks := selectedNetworks s; isPresentingSelectionOverlay := v; isPresentingNetworkSelection := isPresentingNetworkSelection s; isPresentingKeyDetails := isPresentingKeyDetails s; presentedKeyDetails := presentedKeyDetails s; presentedPublicKeyDetails := presentedPublicKeyDetails s; keySummary := keySummary s; derivedKeys := derivedKeys s; selectedKeys := selectedKeys s; isFilteringActive := isFilteringActive s; isPresentingError := isPresentingError s; presentableError := presentableError s; viewState := viewState s; removeSeed := removeSeed s; dismissRequests := dismissRequests s; completions := completions s; actionLog := actionLog s |}.

Definition set_isPresentingNetworkSelection (v : bool) (s : ViewModel) : ViewModel :=
  {| keyName := keyName s; keysData := keysData s; allNetworks := allNetworks s; selectedNetworks := selectedNetworks s; isPresentingSelectionOverlay := isPresentingSelectionOverlay s; isPresentingNetworkSelection := v; isPresentingKeyDetails := isPresentingKeyDetails s; presentedKeyDetails := presentedKeyDetails s; presentedPublicKeyDetails := presentedPublicKeyDetails s; keySummary := keySummary s; derivedKeys := derivedKeys s; selectedKeys := selectedKeys s; isFilteringActive := isFilteringActive s; isPresentingError := isPresentingError s; presentableError := presentableError s; viewState := viewState s; removeSeed := removeSeed s; dismissRequests := dismissRequests s; completions := completions s; actionLog := actionLog s |}.

Definition set_isPresentingKeyDetails (v : bool) (s : ViewModel) : ViewModel :=
  {| keyName := keyName s; keysData := keysData s; allNetworks := allNetworks s; selectedNetworks := selectedNetworks s; isPresentingSelectionOverlay := isPresentingSelectionOverlay s; isPresentingNetworkSelection := isPresentingNetworkSelection s; isPresentingKeyDetails := v; presentedKeyDetails := presentedKeyDetails s; presentedPublicKeyDetails := presentedPublicKeyDetails s; keySummary := keySummary s; derivedKeys := derivedKeys s; selectedKeys := selectedKeys s; isFilteringActive := isFilteringActive s; isPresentingError := isPresentingError s; presentableError := presentableError s; viewState := viewState s; removeSeed := removeSeed s; dismissRequests := dismissRequests s; completions := completions s; actionLog := actionLog s |}.

Definition set_presentedKeyDetails (v : option MKeyDetails) (s : ViewModel) : ViewModel :=
  {| keyName := keyName s; keysData := keysData s; allNetworks := allNetworks s; selectedNetworks := selectedNetworks s; isPresentingSelectionOverlay := isPresentingSelectionOverlay s; isPresentingNetworkSelection := isPresentingNetworkSelection s; isPresentingKeyDetails := isPresentingKeyDetails s; presentedKeyDetails := v; presentedPublicKeyDetails := presentedPublicKeyDetails s; keySummary := keySummary s; derivedKeys := derivedKeys s; selectedKeys := selectedKeys s; isFilteringActive := isFilteringActive s; isPresentingError := isPresentingError s; presentableError := presentableError s; viewState := viewState s; removeSeed := removeSeed s; dismissRequests := dismissRequests s; completions := completions s; actionLog := actionLog s |}.

Definition set_presentedPublicKeyDetails (v : option string) (s : ViewModel) : ViewModel :=
  {| keyName := keyName s; keysData := keysData s; allNetworks := allNetworks s; selectedNetworks := selectedNetworks s; isPresentingSelectionOverlay := isPresentingSelectionOverlay s; isPresentingNetworkSelection := isPresentingNetworkSelection s; isPresentingKeyDetails := isPresentingKeyDetails s; presentedKeyDetails := presentedKeyDetails s; presentedPublicKeyDetails := v; keySummary := keySummary s; derivedKeys := derivedKeys s; selectedKeys := selectedKeys s; isFilteringActive := isFilteringActive s; isPresentingError := isPresentingError s; presentableError := presentableError s; viewState := viewState s; removeSeed := removeSeed s; dismissRequests := dismissRequests s; completions := completions s; actionLog := actionLog s |}.

Definition set_keySummary (v : option KeySummaryViewModel) (s : ViewModel) : ViewModel :=
  {| keyName := keyName s; keysData := keysData s; allNetworks := allNetworks s; selectedNetworks := selectedNetworks s; isPresentingSelectionOverlay := isPresentingSelectionOverlay s; isPresentingNetworkSelection := isPresentingNetworkSelection s; isPresentingKeyDetails := isPresentingKeyDetails s; presentedKeyDetails := presentedKeyDetails s; presentedPublicKeyDetails := presentedPublicKeyDetails s; keySummary := v; derivedKeys := derivedKeys s; selectedKeys := selectedKeys s; isFilteringActive := isFilteringActive s; isPresentingError := isPresentingError s; presentableError := presentableError s; viewState := viewState s; removeSeed := removeSeed s; dismissRequests := dismissRequests s; completions := completions s; actionLog := actionLog s |}.

Definition set_derivedKeys (v : list DerivedKeyRowModel) (s : ViewModel) : ViewModel :=
  {| keyName := keyName s; keysData := keysData s; allNetworks := allNetworks s; selectedNetworks := selectedNetworks s; isPresentingSelectionOverlay := isPresentingSelectionOverlay s; isPresentingNetworkSelection := isPresentingNetworkSelection s; isPresentingKeyDetails := isPresentingKeyDetails s; presentedKeyDetails := presentedKeyDetails s; presentedPublicKeyDetails := presentedPublicKeyDetails s; keySummary := keySummary s; derivedKeys := v; selectedKeys := selectedKeys s; isFilteringActive := isFilteringActive s; isPresentingError := isPresentingError s; presentableError := presentableError s; viewState := viewState s; removeSeed := removeSeed s; dismissRequests := dismissRequests s; completions := completions s; actionLog := actionLog s |}.

Definition set_selectedKeys (v : list DerivedKeyRowModel) (s : ViewModel) : ViewModel :=
  {| keyName := keyName s; keysData := keysData s; allNetworks := allNetworks s; selectedNetworks := selectedNetworks s; isPresentingSelectionOverlay := isPresentingSelectionOverlay s; isPresentingNetworkSelection := isPresentingNetworkSelection s; isPresentingKeyDetails := isPresentingKeyDetails s; presentedKeyDetails := presentedKeyDetails s; presentedPublicKeyDetails := presentedPublicKeyDetails s; keySummary := keySummary s; derivedKeys := derivedKeys s; selectedKeys := v; isFilteringActive := isFilteringActive s; isPresentingError := isPresentingError s; presentableError := presentableError s; viewState := viewState s; removeSeed := removeSeed s; dismissRequests := dismissRequests s; completions := completions s; actionLog := actionLog s |}.

Definition set_isFilteringActive (v : bool) (s : ViewModel) : ViewModel :=
  {| keyName := keyName s; keysData := keysData s; allNetworks := allNetworks s; selectedNetworks := selectedNetworks s; isPresentingSelectionOverlay := isPresentingSelectionOverlay s; isPresentingNetworkSelection := isPresentingNetworkSelection s; isPresentingKeyDetails := isPresentingKeyDetails s; presentedKeyDetails := presentedKeyDetails s; presentedPublicKeyDetails := presentedPublicKeyDetails s; keySummary := keySummary s; derivedKeys := derivedKeys s; selectedKeys := selectedKeys s; isFilteringActive := v; isPresentingError := isPresentingError s; presentableError := presentableError s; viewState := viewState s; removeSeed := removeSeed s; dismissRequests := dismissRequests s; completions := completions s; actionLog := actionLog s |}.

Definition set_isPresentingError (v : bool) (s : ViewModel) : ViewModel :=
  {| keyName := keyName s; keysData := keysData s; allNetworks := allNetworks s; selectedNetworks := selectedNetworks s; isPresentingSelectionOverlay := isPresentingSelectionOverlay s; isPresentingNetworkSelection := isPresentingNetworkSelection s; isPresentingKeyDetails := isPresentingKeyDetails s; presentedKeyDetails := presentedKeyDetails s; presentedPublicKeyDetails := presentedPublicKeyDetails s; keySummary := keySummary s; derivedKeys := derivedKeys s; selectedKeys := selectedKeys s; isFilteringActive := isFilteringActive s; isPresentingError := v; presentableError := presentableError s; viewState := viewState s; removeSeed := removeSeed s; dismissRequests := dismissRequests s; completions := completions s; actionLog := actionLog s |}.

Definition set_presentableError (v : ErrorBottomModalViewModel) (s : ViewModel) : ViewModel :=
  {| keyName := keyName s; keysData := keysData s; allNetworks := allNetworks s; selectedNetworks := selectedNetworks s; isPresentingSelectionOverlay := isPresentingSelectionOverlay s; isPresentingNetworkSelection := isPresentingNetworkSelection s; isPresentingKeyDetails := isPresentingKeyDetails s; presentedKeyDetails := presentedKeyDetails s; presentedPublicKeyDetails := presentedPublicKeyDetails s; keySummary := keySummary s; derivedKeys := derivedKeys s; selectedKeys := selectedKeys s; isFilteringActive := isFilteringActive s; isPresentingError := isPresentingError s; presentableError := v; viewState := viewState s; removeSeed := removeSeed s; dismissRequests := dismissRequests s; completions := completions s; actionLog := actionLog s |}.

Definition set_viewState (v : ViewState.t) (s : ViewModel) : ViewModel :=
  {| keyName := keyName s; keysData := keysData s; allNetworks := allNetworks s; selectedNetworks := selectedNetworks s; isPresentingSelectionOverlay := isPresentingSelectionOverlay s; isPresentingNetworkSelection := isPresentingNetworkSelection s; isPresentingKeyDetails := isPresentingKeyDetails s; presentedKeyDetails := presentedKeyDetails s; presentedPublicKeyDetails := presentedPublicKeyDetails s; keySummary := keySummary s; derivedKeys := derivedKeys s; selectedKeys := selectedKeys s; isFilteringActive := isFilteringActive s; isPresentingError := isPresentingError s; presentableError := presentableError s; viewState := v; removeSeed := removeSeed s; dismissRequests := dismissRequests s; completions := completions s; actionLog := actionLog s |}.

Definition set_removeSeed (v : string) (s : ViewModel) : ViewModel :=
  {| keyName := keyName s; keysData := keysData s; allNetworks := allNetworks s; selectedNetworks := selectedNetworks s; isPresentingSelectionOverlay := isPresentingSelectionOverlay s; isPresentingNetworkSelection := isPresentingNetworkSelection s; isPresentingKeyDetails := isPresentingKeyDetails s; presentedKeyDetails := presentedKeyDetails s; presentedPublicKeyDetails := presentedPublicKeyDetails s; keySummary := keySummary s; derivedKeys := derivedKeys s; selectedKeys := selectedKeys s; isFilteringActive := isFilteringActive s; isPresentingError := isPresentingError s; presentableError := presentableError s; viewState := viewState s; removeSeed := v; dismissRequests := dismissRequests s; completions := completions s; actionLog := actionLog s |}.

Definition set_dismissRequests (v : nat) (s : ViewModel) : ViewModel :=
  {| keyName := keyName s; keysData := keysData s; allNetworks := allNetworks s; selectedNetworks := selectedNetworks s; isPresentingSelectionOverlay := isPresentingSelectionOverlay s; isPresentingNetworkSelection := isPresentingNetworkSelection s; isPresentingKeyDetails := isPresentingKeyDetails s; presentedKeyDetails := presentedKeyDetails s; presentedPublicKeyDetails := presentedPublicKeyDetails s; keySummary := keySummary s; derivedKeys := derivedKeys s; selectedKeys := selectedKeys s; isFilteringActive := isFilteringActive s; isPresentingError := isPresentingError s; presentableError := presentableError s; viewState := viewState s; removeSeed := removeSeed s; dismissRequests := v; completions := completions s; actionLog := actionLog s |}.

Definition set_completions (v : list OnCompletionAction) (s : ViewModel) : ViewModel :=
  {| keyName := keyName s; keysData := keysData s; allNetworks := allNetworks s; selectedNetworks := selectedNetworks s; isPresentingSelectionOverlay := isPresentingSelectionOverlay s; isPresentingNetworkSelection := isPresentingNetworkSelection s; isPresentingKeyDetails := isPresentingKeyDetails s; presentedKeyDetails := presentedKeyDetails s; presentedPublicKeyDetails := presentedPublicKeyDetails s; keySummary := keySummary s; derivedKeys := derivedKeys s; selectedKeys := selectedKeys s; isFilteringActive := isFilteringActive s; isPresentingError := isPresentingError s; presentableError := presentableError s; viewState := viewState s; removeSeed := removeSeed s; dismissRequests := dismissRequests s; completions := v; actionLog := actionLog s |}.

Definition set_actionLog (v : list KeyDetailsAction) (s : ViewModel) : ViewModel :=
  {| keyName := keyName s; keysData := keysData s; allNetworks := allNetworks s; selectedNetworks := selectedNetworks s; isPresentingSelectionOverlay := isPresentingSelectionOverlay s; isPresentingNetworkSelection := isPresentingNetworkSelection s; isPresentingKeyDetails := isPresentingKeyDetails s; presentedKeyDetails := presentedKeyDetails s; presentedPublicKeyDetails := presentedPublicKeyDetails s; keySummary := keySummary s; derivedKeys := derivedKeys s; selectedKeys := selectedKeys s; isFilteringActive := isFilteringActive s; isPresentingError := isPresentingError s; presentableError := presentableError s; viewState := viewState s; removeSeed := removeSeed s; dismissRequests := dismissRequests s; completions := completions s; actionLog := v |}.

(** ** Helpers for Swift collection operations *)

Definition isEmpty {A} (l : list A) : bool :=
  match l with [] => true | _ :: _ => false end.

(** [Array.sorted(by:)]: Swift's sort is stable; modelled as a stable
    insertion sort ([x] goes before any [y] with [!(y < x)]). *)
Fixpoint insert_by {A} (lt : A -> A -> bool) (x : A) (l : list A) : list A :=
  match l with
  | [] => [x]
  | y :: l' => if lt y x then y :: insert_by lt x l' else x :: l
  end.

Fixpoint sorted_by {A} (lt : A -> A -> bool) (l : list A) : list A :=
  match l with
  | [] => []
  | x :: l' => insert_by lt x (sorted_by lt l')
  end.

(** [Array.contains] on an array of [Equatable] rows. *)
Definition containsRow (x : DerivedKeyRowModel) (l : list DerivedKeyRowModel) : bool :=
  existsb (fun y => if DerivedKeyRowModel_eq_dec y x then true else false) l.

(** [Array.removeAll { $0 == x }]. *)
Definition removeAllRow (x : DerivedKeyRowModel) (l : list DerivedKeyRowModel) :=
  filter (fun y => if DerivedKeyRowModel_eq_dec y x then false else true) l.

(** ** Derived-key projection ([refreshDerivedKeys], [refreshKeySummary]) *)

Definition path_of (c : MKeyAndNetworkCard) : string := path (address (key c)).

(** [{ $0.key.address.path < $1.key.address.path }]: on ASCII derivation
    paths Swift's [String] [<] is the lexicographic order of the characters. *)
Definition pathLess (a b : MKeyAndNetworkCard) : bool :=
  String.ltb (path_of a) (path_of b).

Definition mkDerivedKeyRowModel (c : MKeyAndNetworkCard) : DerivedKeyRowModel :=
  {| keyData := c;
     viewModel := DerivedKeyRowViewModel_of c;
     row_publicKeyDetails := publicKeyDetails c |}.

(** [appState.userData.selectedNetworks.map(\.key).contains($0.network.networkSpecsKey)] *)
Definition inSelectedNetworks (selected : list MmNetwork) (c : MKeyAndNetworkCard) : bool :=
  existsb (fun k => String.eqb k (networkSpecsKey (network c))) (map network_key selected).

(** The body of [refreshDerivedKeys] once [keysData] is known. *)
Definition projectDerivedKeys (selected : list MmNetwork) (cards : list MKeyAndNetworkCard)
  : list DerivedKeyRowModel :=
  let sortedDerivedKeys := sorted_by pathLess cards in
  let filteredKeys :=
    if isEmpty selected then sortedDerivedKeys
    else filter (inSelectedNetworks selected) sortedDerivedKeys in
  map mkDerivedKeyRowModel filteredKeys.

Definition refreshDerivedKeys (s : ViewModel) : ViewModel :=
  match keysData s with
  | None => s
  | Some kd =>
      let dk := projectDerivedKeys (selectedNetworks s) (set kd) in
      set_viewState (if isEmpty dk then ViewState.emptyState else ViewState.list)
        (set_derivedKeys dk s)
  end.

Definition refreshKeySummary (s : ViewModel) : ViewModel :=
  match keysData s with
  | None => s
  | Some kd =>
      let name := match root kd with Some r => seedName (root_address r) | None => "" end in
      let b58 := match root kd with Some r => root_base58 r | None => "" end in
      set_removeSeed name (set_keySummary (Some {| ks_keyName := name; ks_base58 := b58 |}) s)
  end.

(** [updateRenderables]: [refreshNetworks()] only issues a request here; its
    completion closure is [refreshNetworks_completion]. *)
Definition updateRenderables (s : ViewModel) : ViewModel :=
  refreshKeySummary (refreshDerivedKeys s).

(** ** Completion closures of the asynchronous service calls *)

Definition refreshNetworks_completion (r : Result (list MmNetwork)) (s : ViewModel) : ViewModel :=
  match r with
  | success networks => set_allNetworks networks s
  | failure e => set_isPresentingError true (set_presentableError (alertError e) s)
  end.

Definition refreshData_completion (r : Result MKeysNew) (s : ViewModel) : ViewModel :=
  match r with
  | success kd => updateRenderables (set_keysData (Some kd) s)
  | failure e => set_isPresentingError true (set_presentableError (alertError e) s)
  end.

(** ** Subscribers of [$isPresentingNetworkSelection]

    A [@Published] publisher delivers the current value on subscription and
    then every assigned value (in [willSet], also when it is unchanged). *)

(** Sink installed by [use(appState:)]. *)
Definition use_sink (newValue : bool) (s : ViewModel) : ViewModel :=
  if newValue then s
  else set_isFilteringActive (negb (isEmpty (selectedNetworks s))) s.

(** Sink installed by [subscribeToNetworkChanges]. *)
Definition networkChanges_sink (newValue : bool) (s : ViewModel) : ViewModel :=
  if newValue then s else refreshDerivedKeys s.

(** An assignment [isPresentingNetworkSelection = v]: both sinks run, in
    subscription order, then the value is stored. *)
Definition assign_isPresentingNetworkSelection (v : bool) (s : ViewModel) : ViewModel :=
  set_isPresentingNetworkSelection v (networkChanges_sink v (use_sink v s)).

Definition onNetworkSelectionTap_completion (r : Result (list MmNetwork)) (s : ViewModel)
  : ViewModel :=
  match r with
  | success networks => assign_isPresentingNetworkSelection true (set_allNetworks networks s)
  | failure _ => s
  end.

(** ** Tap actions *)

Definition onRemoveKeySetConfirmationTap (co : Collaborators) (s : ViewModel) : ViewModel :=
  let isRemoved := removeSeedFn co (removeSeed s) in
  if negb isRemoved then s
  else
    let s1 := set_actionLog ((actionLog s ++ [forgetKeySetAction (keyName s)])%list) s in
    let s2 := set_dismissRequests (S (dismissRequests s1)) s1 in
    set_completions ((completions s2 ++ [keySetDeleted])%list) s2.

(** The selection branch of [onDerivedKeyTap]. *)
Definition toggleSelectedKeys (deriveKey : DerivedKeyRowModel) (l : list DerivedKeyRowModel) :=
  if containsRow deriveKey l then removeAllRow deriveKey l else (l ++ [deriveKey])%list.

Definition onDerivedKeyTap (co : Collaborators) (deriveKey : DerivedKeyRowModel) (s : ViewModel)
  : ViewModel :=
  if isPresentingSelectionOverlay s then
    set_selectedKeys (toggleSelectedKeys deriveKey (selectedKeys s)) s
  else
    match navigateToPublicKey co (keyName s) (row_publicKeyDetails deriveKey) with
    | None => s
    | Some kd =>
        set_isPresentingKeyDetails true
          (set_presentedKeyDetails (Some kd)
             (set_presentedPublicKeyDetails (Some (row_publicKeyDetails deriveKey)) s))
    end.

(** ** Construction *)

Definition initialFields (keyName : string) (keysData : option MKeysNew)
  (allNetworks selectedNetworks : list MmNetwork) : ViewModel :=
  {| keyName := keyName; keysData := keysData; allNetworks := allNetworks;
     selectedNetworks := selectedNetworks; isPresentingSelectionOverlay := false;
     isPresentingNetworkSelection := false; isPresentingKeyDetails := false;
     presentedKeyDetails := None; presentedPublicKeyDetails := None;
     keySummary := None; derivedKeys := []; selectedKeys := [];
     isFilteringActive := false; isPresentingError := false;
     presentableError := noNetworksAvailable; viewState := ViewState.list;
     removeSeed := ""; dismissRequests := 0; completions := []; actionLog := [] |}.

(** [init]: [use(appState:)], [updateRenderables()], [subscribeToNetworkChanges()]
    and [refreshData()], whose request completes later ([refreshData_completion]). *)
Definition init (keyName : string) (keysData : option MKeysNew)
  (allNetworks selectedNetworks : list MmNetwork) : ViewModel :=
  let s0 := initialFields keyName keysData allNetworks selectedNetworks in
  let s1 := use_sink (isPresentingNetworkSelection s0) s0 in
  let s2 := updateRenderables s1 in
  networkChanges_sink (isPresentingNetworkSelection s2) s2.

(** ** Events reaching the view-model *)

Inductive Event :=
| KeysFetched (r : Result MKeysNew)                    (* completion of refreshData() *)
| NetworksFetched (r : Result (list MmNetwork))        (* completion of refreshNetworks() *)
| NetworkSelectionFetched (r : Result (list MmNetwork)) (* completion of onNetworkSelectionTap() *)
| NetworkSelectionPresented (b : bool)       (* the view assigns isPresentingNetworkSelection *)
| SelectedNetworksChanged (l : list MmNetwork) (* shared appState.userData.selectedNetworks *)
| SelectionOverlayPresented (b : bool)       (* assignment of isPresentingSelectionOverlay *)
| RemoveKeySetConfirmationTap
| DerivedKeyTap (row : DerivedKeyRowModel).

Definition step (co : Collaborators) (e : Event) (s : ViewModel) : ViewModel :=
  match e with
  | KeysFetched r => refreshData_completion r s
  | NetworksFetched r => refreshNetworks_completion r s
  | NetworkSelectionFetched r => onNetworkSelectionTap_completion r s
  | NetworkSelectionPresented b => assign_isPresentingNetworkSelection b s
  | SelectedNetworksChanged l => set_selectedNetworks l s
  | SelectionOverlayPresented b => set_isPresentingSelectionOverlay b s
  | RemoveKeySetConfirmationTap => onRemoveKeySetConfirmationTap co s
  | DerivedKeyTap row => onDerivedKeyTap co row s
  end.

Fixpoint run (co : Collaborators) (evs : list Event) (s : ViewModel) : ViewModel :=
  match evs with
  | [] => s
  | e :: evs' => run co evs' (step co e s)
  end.

(** ** The projection in the spec's words

    Records already in derivation-path order, restricted to the records whose
    network identifier is a member of the filter when the filter is non-empty,
    each mapped to a row. *)
Definition spec_projection (networkFilter : list MmNetwork) (sortedRecords : list MKeyAndNetworkCard)
  : list DerivedKeyRowModel :=
  map mkDerivedKeyRowModel
    (filter (fun c => isEmpty networkFilter
                      || (if in_dec string_dec (networkSpecsKey (network c))
                                    (map network_key networkFilter) then true else false))
       sortedRecords).

Definition path_le (a b : MKeyAndNetworkCard) : Prop := String.leb (path_of a) (path_of b) = true.
Definition path_lt (a b : MKeyAndNetworkCard) : Prop := String.ltb (path_of a) (path_of b) = true.

(** ** Sample data *)

Definition networkA : MSCNetworkInfo :=
  {| networkTitle := "Polkadot"; networkLogo := "polkadot"; networkSpecsKey := "A" |}.
Definition networkB : MSCNetworkInfo :=
  {| networkTitle := "Kusama"; networkLogo := "kusama"; networkSpecsKey := "B" |}.
Definition mmA : MmNetwork := {| network_key := "A"; network_title := "Polkadot" |}.

Definition card (p : string) (n : MSCNetworkInfo) : MKeyAndNetworkCard :=
  {| key := {| address := {| path := p; seedName := "Alice" |};
               addressKey := "0x" ++ p; base58 := "5F" ++ p |};
     network := n |}.

Definition aliceRoot : MAddressCard :=
  {| root_base58 := "5Root"; root_address := {| path := ""; seedName := "Alice" |} |}.

Definition keysUnsorted : MKeysNew :=
  {| root := Some aliceRoot; set := [card "//1" networkA; card "//0" networkA; card "//2" networkA] |}.

Definition keysTwoNetworks : MKeysNew :=
  {| root := Some aliceRoot; set := [card "//b" networkB; card "//a" networkA] |}.

Definition rowPaths (l : list DerivedKeyRowModel) : list string :=
  map (fun r => path_of (keyData r)) l.

Definition noCollaborators : Collaborators :=
  {| removeSeedFn := fun _ => false; navigateToPublicKey := fun _ _ => None |}.

(** The link between [viewState] and the stored rows, expected once a key set
    has been stored. *)
Definition viewStateConsistent (s : ViewModel) : Prop :=
  keysData s <> None ->
  (viewState s = ViewState.emptyState <-> derivedKeys s = []).

(** What a view-model shows while no key set is stored. *)
Definition noKeySetShown (s : ViewModel) : Prop :=
  keysData s = None /\ viewState s = ViewState.list /\ derivedKeys s = [] /\ keySummary s = None.

Definition isSuccessfulKeysFetch (e : Event) : bool :=
  match e with KeysFetched (success _) => true | _ => false end.

(** ** Presentation flow of the remaining methods *)

(** Built by [PrivateKeyQRCodeService.backupViewModel] (outside the source
    files); the view-model only stores what the service returns. *)
Record BackupModalViewModel := { backup_keyName : string; backup_base58 : string }.

(** Snackbar titles are localized resources ([Localizable]); they are kept as
    the resource they name. *)
Inductive SnackbarTitle :=
| literal (s : string)
| PublicKeyDetailsModal_Confirmation_snackbar
| CreateDerivedKey_Snackbar_created.

Inductive SnackbarStyle := info | warning.

Record SnackbarViewModel := { sn_title : SnackbarTitle; sn_style : SnackbarStyle }.

(** Requests sent to collaborators that return nothing to the view-model. *)
Inductive Request :=
| performBackupSeed (keyName : string)                  (* keyDetailsActionsService *)
| resetNavigationStateToKeyDetails (keyName : string)   (* keyDetailsActionsService *)
| resetConnectivityWarnings                             (* warningStateMediator *)
| getKeys (keyName : string).                           (* keyDetailsService, from refreshData() *)

(** Collaborators read by the remaining methods. *)
Record ScreenCollaborators :=
  { alert : bool;                                              (* warningStateMediator.alert *)
    backupViewModel : option MKeysNew -> option BackupModalViewModel }.

(** The view-model together with its presentation fields that the claims do
    not use; [vm] holds the fields modelled in [ViewModel]. *)
Record KeyDetailsScreen := {
  vm : ViewModel;
  shouldPresentRemoveConfirmationModal : bool;
  shouldPresentBackupModal : bool;
  shouldPresentSelectionOverlay : bool;
  isShowingRemoveConfirmation : bool;
  isShowingBackupModal : bool;
  isPresentingConnectivityAlert : bool;
  isPresentingRootDetails : bool;
  isPresentingDeriveNewKey : bool;
  backupModal : option BackupModalViewModel;
  snackbarViewModel : SnackbarViewModel;
  isSnackbarPresented : bool;
  requests : list Request
}.

Definition setx_vm (v : ViewModel) (s : KeyDetailsScreen) : KeyDetailsScreen :=
  {| vm := v; shouldPresentRemoveConfirmationModal := shouldPresentRemoveConfirmationModal s; shouldPresentBackupModal := shouldPresentBackupModal s; shouldPresentSelectionOverlay := shouldPresentSelectionOverlay s; isShowingRemoveConfirmation := isShowingRemoveConfirmation s; isShowingBackupModal := isShowingBackupModal s; isPresentingConnectivityAlert := isPresentingConnectivityAlert s; isPresentingRootDetails := isPresentingRootDetails s; isPresentingDeriveNewKey := isPresentingDeriveNewKey s; backupModal := backupModal s; snackbarViewModel := snackbarViewModel s; isSnackbarPresented := isSnackbarPresented s; requests := requests s |}.

Definition setx_shouldPresentRemoveConfirmationModal (v : bool) (s : KeyDetailsScreen) : KeyDetailsScreen :=
  {| vm := vm s; shouldPresentRemoveConfirmationModal := v; shouldPresentBackupModal := shouldPresentBackupModal s; shouldPresentSelectionOverlay := shouldPresentSelectionOverlay s; isShowingRemoveConfirmation := isShowingRemoveConfirmation s; isShowingBackupModal := isShowingBackupModal s; isPresentingConnectivityAlert := isPresentingConnectivityAlert s; isPresentingRootDetails := isPresentingRootDetails s; isPresentingDeriveNewKey := isPresentingDeriveNewKey s; backupModal := backupModal s; snackbarViewModel := snackbarViewModel s; isSnackbarPresented := isSnackbarPresented s; requests := requests s |}.

Definition setx_shouldPresentBackupModal (v : bool) (s : KeyDetailsScreen) : KeyDetailsScreen :=
  {| vm := vm s; shouldPresentRemoveConfirmationModal := shouldPresentRemoveConfirmationModal s; shouldPresentBackupModal := v; shouldPresentSelectionOverlay := shouldPresentSelectionOverlay s; isShowingRemoveConfirmation := isShowingRemoveConfirmation s; isShowingBackupModal := isShowingBackupModal s; isPresentingConnectivityAlert := isPresentingConnectivityAlert s; isPresentingRootDetails := isPresentingRootDetails s; isPresentingDeriveNewKey := isPresentingDeriveNewKey s; backupModal := backupModal s; snackbarViewModel := snackbarViewModel s; isSnackbarPresented := isSnackbarPresented s; requests := requests s |}.

Definition setx_shouldPresentSelectionOverlay (v : bool) (s : KeyDetailsScreen) : KeyDetailsScreen :=
  {| vm := vm s; shouldPresentRemoveConfirmationModal := shouldPresentRemoveConfirmationModal s; shouldPresentBackupModal := shouldPresentBackupModal s; shouldPresentSelectionOverlay := v; isShowingRemoveConfirmation := isShowingRemoveConfirmation s; isShowingBackupModal := isShowingBackupModal s; isPresentingConnectivityAlert := isPresentingConnectivityAlert s; isPresentingRootDetails := isPresentingRootDetails s; isPresentingDeriveNewKey := isPresentingDeriveNewKey s; backupModal := backupModal s; snackbarViewModel := snackbarViewModel s; isSnackbarPresented := isSnackbarPresented s; requests := requests s |}.

Definition setx_isShowingRemoveConfirmation (v : bool) (s : KeyDetailsScreen) : KeyDetailsScreen :=
  {| vm := vm s; shouldPresentRemoveConfirmationModal := shouldPresentRemoveConfirmationModal s; shouldPresentBackupModal := shouldPresentBackupModal s; shouldPresentSelectionOverlay := shouldPresentSelectionOverlay s; isShowingRemoveConfirmation := v; isShowingBackupModal := isShowingBackupModal s; isPresentingConnectivityAlert := isPresentingConnectivityAlert s; isPresentingRootDetails := isPresentingRootDetails s; isPresentingDeriveNewKey := isPresentingDeriveNewKey s; backupModal := backupModal s; snackbarViewModel := snackbarViewModel s; isSnackbarPresented := isSnackbarPresented s; requests := requests s |}.

Definition setx_isShowingBackupModal (v : bool) (s : KeyDetailsScreen) : KeyDetailsScreen :=
  {| vm := vm s; shouldPresentRemoveConfirmationModal := shouldPresentRemoveConfirmationModal s; shouldPresentBackupModal := shouldPresentBackupModal s; shouldPresentSelectionOverlay := shouldPresentSelectionOverlay s; isShowingRemoveConfirmation := isShowingRemoveConfirmation s; isShowingBackupModal := v; isPresentingConnectivityAlert := isPresentingConnectivityAlert s; isPresentingRootDetails := isPresentingRootDetails s; isPresentingDeriveNewKey := isPresentingDeriveNewKey s; backupModal := backupModal s; snackbarViewModel := snackbarViewModel s; isSnackbarPresented := isSnackbarPresented s; requests := requests s |}.

Definition setx_isPresentingConnectivityAlert (v : bool) (s : KeyDetailsScreen) : KeyDetailsScreen :=
  {| vm := vm s; shouldPresentRemoveConfirmationModal := shouldPresentRemoveConfirmationModal s; shouldPresentBackupModal := shouldPresentBackupModal s; shouldPresentSelectionOverlay := shouldPresentSelectionOverlay s; isShowingRemoveConfirmation := isShowingRemoveConfirmation s; isShowingBackupModal := isShowingBackupModal s; isPresentingConnectivityAlert := v; isPresentingRootDetails := isPresentingRootDetails s; isPresentingDeriveNewKey := isPresentingDeriveNewKey s; backupModal := backupModal s; snackbarViewModel := snackbarViewModel s; isSnackbarPresented := isSnackbarPresented s; requests := requests s |}.

Definition setx_isPresentingRootDetails (v : bool) (s : KeyDetailsScreen) : KeyDetailsScreen :=
  {| vm := vm s; shouldPresentRemoveConfirmationModal := shouldPresentRemoveConfirmationModal s; shouldPresentBackupModal := shouldPresentBackupModal s; shouldPresentSelectionOverlay := shouldPresentSelectionOverlay s; isShowingRemoveConfirmation := isShowingRemoveConfirmation s; isShowingBackupModal := isShowingBackupModal s; isPresentingConnectivityAlert := isPresentingConnectivityAlert s; isPresentingRootDetails := v; isPresentingDeriveNewKey := isPresentingDeriveNewKey s; backupModal := backupModal s; snackbarViewModel := snackbarViewModel s; isSnackbarPresented := isSnackbarPresented s; requests := requests s |}.


Definition setx_backupModal (v : option BackupModalViewModel) (s : KeyDetailsScreen) : KeyDetailsScreen :=
  {| vm := vm s; shouldPresentRemoveConfirmationModal := shouldPresentRemoveConfirmationModal s; shouldPresentBackupModal := shouldPresentBackupModal s; shouldPresentSelectionOverlay := shouldPresentSelectionOverlay s; isShowingRemoveConfirmation := isShowingRemoveConfirmation s; isShowingBackupModal := isShowingBackupModal s; isPresentingConnectivityAlert := isPresentingConnectivityAlert s; isPresentingRootDetails := isPresentingRootDetails s; isPresentingDeriveNewKey := isPresentingDeriveNewKey s; backupModal := v; snackbarViewModel := snackbarViewModel s; isSnackbarPresented := isSnackbarPresented s; requests := requests s |}.

Definition setx_snackbarViewModel (v : SnackbarViewModel) (s : KeyDetailsScreen) : KeyDetailsScreen :=
  {| vm := vm s; shouldPresentRemoveConfirmationModal := shouldPresentRemoveConfirmationModal s; shouldPresentBackupModal := shouldPresentBackupModal s; shouldPresentSelectionOverlay := shouldPresentSelectionOverlay s; isShowingRemoveConfirmation := isShowingRemoveConfirmation s; isShowingBackupModal := isShowingBackupModal s; isPresentingConnectivityAlert := isPresentingConnectivityAlert s; isPresentingRootDetails := isPresentingRootDetails s; isPresentingDeriveNewKey := isPresentingDeriveNewKey s; backupModal := backupModal s; snackbarViewModel := v; isSnackbarPresented := isSnackbarPresented s; requests := requests s |}.

Definition setx_isSnackbarPresented (v : bool) (s : KeyDetailsScreen) : KeyDetailsScreen :=
  {| vm := vm s; shouldPresentRemoveConfirmationModal := shouldPresentRemoveConfirmationModal s; shouldPresentBackupModal := shouldPresentBackupModal s; shouldPresentSelectionOverlay := shouldPresentSelectionOverlay s; isShowingRemoveConfirmation := isShowingRemoveConfirmation s; isShowingBackupModal := isShowingBackupModal s; isPresentingConnectivityAlert := isPresentingConnectivityAlert s; isPresentingRootDetails := isPresentingRootDetails s; isPresentingDeriveNewKey := isPresentingDeriveNewKey s; backupModal := backupModal s; snackbarViewModel := snackbarViewModel s; isSnackbarPresented := v; requests := requests s |}.

Definition setx_requests (v : list Request) (s : KeyDetailsScreen) : KeyDetailsScreen :=
  {| vm := vm s; shouldPresentRemoveConfirmationModal := shouldPresentRemoveConfirmationModal s; shouldPresentBackupModal := shouldPresentBackupModal s; shouldPresentSelectionOverlay := shouldPresentSelectionOverlay s; isShowingRemoveConfirmation := isShowingRemoveConfirmation s; isShowingBackupModal := isShowingBackupModal s; isPresentingConnectivityAlert := isPresentingConnectivityAlert s; isPresentingRootDetails := isPresentingRootDetails s; isPresentingDeriveNewKey := isPresentingDeriveNewKey s; backupModal := backupModal s; snackbarViewModel := snackbarViewModel s; isSnackbarPresented := isSnackbarPresented s; requests := v |}.

Definition initialScreen (s : ViewModel) : KeyDetailsScreen :=
  {| vm := s; shouldPresentRemoveConfirmationModal := false; shouldPresentBackupModal := false;
     shouldPresentSelectionOverlay := false; isShowingRemoveConfirmation := false;
     isShowingBackupModal := false; isPresentingConnectivityAlert := false;
     isPresentingRootDetails := false; isPresentingDeriveNewKey := false; backupModal := None;
     snackbarViewModel := {| sn_title := literal ""; sn_style := info |};
     isSnackbarPresented := false; requests := [] |}.

Definition addRequest (r : Request) (s : KeyDetailsScreen) : KeyDetailsScreen :=
  setx_requests ((requests s ++ [r])%list) s.

(** [refreshData()]: the request part; the completion is [refreshData_completion]. *)
Definition refreshData_request (s : KeyDetailsScreen) : KeyDetailsScreen :=
  addRequest (getKeys (keyName (vm s))) s.


Definition onRootKeyTap (s : KeyDetailsScreen) : KeyDetailsScreen :=
  if isPresentingSelectionOverlay (vm s) then s
  else setx_isPresentingRootDetails true s.


Definition onRemoveKeySetModalDismiss (s : KeyDetailsScreen) : KeyDetailsScreen :=
  addRequest (resetNavigationStateToKeyDetails (keyName (vm s))) s.

(** [updateBackupModel]. *)
Definition updateBackupModel (co : ScreenCollaborators) (s : KeyDetailsScreen) : KeyDetailsScreen :=
  setx_backupModal (backupViewModel co (keysData (vm s))) s.

Definition onActionSheetDismissal (co : ScreenCollaborators) (s : KeyDetailsScreen) : KeyDetailsScreen :=
  let isAlertVisible := alert co in
  let s1 :=
    if shouldPresentRemoveConfirmationModal s then
      setx_isShowingRemoveConfirmation (negb (isShowingRemoveConfirmation s))
        (setx_shouldPresentRemoveConfirmationModal false s)
    else s in
  let s2 :=
    if shouldPresentBackupModal s1 then
      let t := setx_shouldPresentBackupModal false s1 in
      if isAlertVisible then
        setx_isPresentingConnectivityAlert (negb (isPresentingConnectivityAlert t)) t
      else
        let t1 := addRequest (performBackupSeed (keyName (vm t))) t in
        setx_isShowingBackupModal true (updateBackupModel co t1)
    else s1 in
  if shouldPresentSelectionOverlay s2 then
    let t := setx_shouldPresentSelectionOverlay false s2 in
    setx_vm (set_isPresentingSelectionOverlay (negb (isPresentingSelectionOverlay (vm t))) (vm t)) t
  else s2.

Definition clearBackupModalState (s : KeyDetailsScreen) : KeyDetailsScreen :=
  setx_backupModal None s.

Inductive PublicKeyCompletionAction := derivedKeyDeleted.
Inductive CreateKeyCompletionAction := derivedKeyCreated.

Definition onPublicKeyCompletion (a : PublicKeyCompletionAction) (s : KeyDetailsScreen)
  : KeyDetailsScreen :=
  match a with
  | derivedKeyDeleted =>
      setx_isSnackbarPresented true
        (setx_snackbarViewModel
           {| sn_title := PublicKeyDetailsModal_Confirmation_snackbar; sn_style := warning |}
           (refreshData_request s))
  end.

Definition onAddDerivedKeyCompletion (a : CreateKeyCompletionAction) (s : KeyDetailsScreen)
  : KeyDetailsScreen :=
  match a with
  | derivedKeyCreated =>
      setx_isSnackbarPresented true
        (setx_snackbarViewModel
           {| sn_title := CreateDerivedKey_Snackbar_created; sn_style := info |}
           (refreshData_request s))
  end.





Record RootKeyDetailsModalViewModel := { rk_name : string; rk_publicKey : string }.

Definition rootKeyDetails (s : ViewModel) : RootKeyDetailsModalViewModel :=
  {| rk_name := match keySummary s with Some k => ks_keyName k | None => "" end;
     rk_publicKey := match keySummary s with Some k => ks_base58 k | None => "" end |}.

(** [keyData(for:)]: the first record of the stored key set with the row's path. *)
Definition keyData_for (s : ViewModel) (derivedKey : DerivedKeyRowModel)
  : option MKeyAndNetworkCard :=
  match keysData s with
  | None => None
  | Some kd => find (fun c => String.eqb (path_of c) (rv_path (viewModel derivedKey))) (set kd)
  end.

(** The arguments of [CreateKeyNetworkSelectionView.ViewModel.init]. *)
Record CreateKeyNetworkSelectionArgs :=
  { ck_seedName : string; ck_keyName : string; ck_keySet : MKeysNew }.

(** [createDerivedKeyViewModel]: [keysData!] traps when nothing is stored;
    the trap is [None]. *)
Definition createDerivedKeyViewModel (s : ViewModel) : option CreateKeyNetworkSelectionArgs :=
  let seed := match keysData s with
              | Some kd => match root kd with Some r => seedName (root_address r) | None => "" end
              | None => "" end in
  match keysData s with
  | None => None
  | Some kd => Some {| ck_seedName := seed; ck_keyName := keyName s; ck_keySet := kd |}
  end.

(** The stored rows all come from the stored key set. *)
Definition rowsFromKeySet (s : ViewModel) : Prop :=
  forall r, In r (derivedKeys s) ->
  exists ks, keysData s = Some ks /\ In (keyData r) (set ks) /\ r = mkDerivedKeyRowModel (keyData r).

(** The seed named for removal is the one shown in the summary. *)
Definition removeSeedMatchesSummary (s : ViewModel) : Prop :=
  match keySummary s with
  | Some k => removeSeed s = ks_keyName k
  | None => removeSeed s = ""
  end.

(** Each dismiss request went out with one completion and one forget action. *)
Definition signalsPaired (s : ViewModel) : Prop :=
  dismissRequests s = length (completions s) /\ dismissRequests s = length (actionLog s).

Definition isErrorCompletion (e : Event) : bool :=
  match e with
  | KeysFetched (failure _) | NetworksFetched (failure _) => true
  | _ => false
  end.


Example projection_sample :
  rowPaths (projectDerivedKeys [] (set keysUnsorted)) = ["//0"; "//1"; "//2"].
Proof. reflexivity. Qed.

Example filter_sample :
  rowPaths (projectDerivedKeys [mmA] (set keysTwoNetworks)) = ["//a"].
Proof. reflexivity. Qed.

(** ** Lexicographic order on paths *)

Lemma ascii_compare_refl (c : Ascii.ascii) : Ascii.compare c c = Eq.
Proof. unfold Ascii.compare. apply N.compare_refl. Qed.

Lemma string_compare_refl (s : string) : String.compare s s = Eq.
Proof. induction s as [|c s IH]; simpl; [reflexivity|]. now rewrite ascii_compare_refl. Qed.

Lemma ascii_compare_lt_trans (a b c : Ascii.ascii) :
  Ascii.compare a b = Lt -> Ascii.compare b c = Lt -> Ascii.compare a c = Lt.
Proof. unfold Ascii.compare. rewrite !N.compare_lt_iff. lia. Qed.

Lemma string_compare_lt_trans (a b c : string) :
  String.compare a b = Lt -> String.compare b c = Lt -> String.compare a c = Lt.
Proof.
  revert b c.
  induction a as [|ca a IH]; intros [|cb b] [|cc c]; simpl; intros Hab Hbc;
    try discriminate; try reflexivity.
  destruct (Ascii.compare ca cb) eqn:E1; try discriminate;
    destruct (Ascii.compare cb cc) eqn:E2; try discriminate.
  - apply Ascii.compare_eq_iff in E1, E2; subst.
    rewrite ascii_compare_refl. now apply (IH b).
  - apply Ascii.compare_eq_iff in E1; subst. now rewrite E2.
  - apply Ascii.compare_eq_iff in E2; subst. now rewrite E1.
  - now rewrite (ascii_compare_lt_trans _ _ _ E1 E2).
Qed.

Lemma string_leb_iff (a b : string) :
  String.leb a b = true <-> String.compare a b = Lt \/ a = b.
Proof.
  unfold String.leb. split.
  - destruct (String.compare a b) eqn:E; try discriminate; auto.
    intros _. right. now apply String.compare_eq_iff.
  - intros [H | H]; [rewrite H | subst; rewrite string_compare_refl]; reflexivity.
Qed.

Lemma string_ltb_iff (a b : string) : String.ltb a b = true <-> String.compare a b = Lt.
Proof. unfold String.ltb. destruct (String.compare a b); split; congruence. Qed.

Lemma pathLess_false_le (x y : MKeyAndNetworkCard) : pathLess y x = false -> path_le x y.
Proof.
  unfold pathLess, path_le, String.ltb, String.leb.
  rewrite (String.compare_antisym (path_of x)).
  destruct (String.compare (path_of y) (path_of x)); simpl; congruence.
Qed.

Lemma pathLess_true_le (x y : MKeyAndNetworkCard) : pathLess y x = true -> path_le y x.
Proof.
  unfold pathLess, path_le, String.ltb, String.leb.
  destruct (String.compare (path_of y) (path_of x)); congruence.
Qed.

Lemma path_le_trans (a b c : MKeyAndNetworkCard) : path_le a b -> path_le b c -> path_le a c.
Proof.
  unfold path_le. rewrite !string_leb_iff.
  intros [H1 | H1] [H2 | H2].
  - left. eapply string_compare_lt_trans; eauto.
  - left. now rewrite <- H2.
  - left. now rewrite H1.
  - right. congruence.
Qed.

(** ** The stable sort *)

Lemma insert_by_perm {A} (lt : A -> A -> bool) (x : A) (l : list A) :
  Permutation (insert_by lt x l) (x :: l).
Proof.
  induction l as [|y l IH]; simpl; [reflexivity|].
  destruct (lt y x); [|reflexivity].
  rewrite IH. apply perm_swap.
Qed.

Lemma sorted_by_perm {A} (lt : A -> A -> bool) (l : list A) :
  Permutation (sorted_by lt l) l.
Proof.
  induction l as [|x l IH]; simpl; [reflexivity|].
  rewrite insert_by_perm. now apply perm_skip.
Qed.

Lemma insert_by_hdrel (x y : MKeyAndNetworkCard) (l : list MKeyAndNetworkCard) :
  path_le y x -> HdRel path_le y l -> HdRel path_le y (insert_by pathLess x l).
Proof.
  intros Hyx Hl. destruct l as [|z l]; simpl.
  - now constructor.
  - destruct (pathLess z x); constructor; auto. now inversion Hl.
Qed.

Lemma insert_by_sorted (x : MKeyAndNetworkCard) (l : list MKeyAndNetworkCard) :
  Sorted path_le l -> Sorted path_le (insert_by pathLess x l).
Proof.
  induction l as [|y l IH]; simpl; intros Hs.
  - now repeat constructor.
  - destruct (pathLess y x) eqn:E.
    + inversion Hs; subst. constructor; [now apply IH|].
      apply insert_by_hdrel; auto. now apply pathLess_true_le.
    + constructor; [exact Hs|]. constructor. now apply pathLess_false_le.
Qed.

Lemma sorted_by_sorted (l : list MKeyAndNetworkCard) : Sorted path_le (sorted_by pathLess l).
Proof.
  induction l as [|x l IH]; simpl; [constructor|]. now apply insert_by_sorted.
Qed.

(** With distinct paths the sorted list is strictly increasing. *)
Lemma strongly_sorted_strict (l : list MKeyAndNetworkCard) :
  StronglySorted path_le l -> NoDup (map path_of l) -> StronglySorted path_lt l.
Proof.
  induction 1 as [|a l Hs IH Hf]; simpl; intros Hnd; constructor.
  - apply IH. now inversion Hnd.
  - inversion Hnd as [|? ? Hnin _]; subst.
    rewrite Forall_forall in *. intros y Hy.
    specialize (Hf y Hy). unfold path_le, path_lt in *.
    apply string_leb_iff in Hf. apply string_ltb_iff.
    destruct Hf as [Hf | Hf]; [exact Hf|].
    exfalso. apply Hnin. rewrite Hf. now apply in_map.
Qed.

(** Two strictly increasing lists with the same elements are equal. *)
Lemma strongly_sorted_perm_eq {A} (R : A -> A -> Prop) :
  (forall a b, R a b -> R b a -> False) ->
  forall l1 l2, Permutation l1 l2 -> StronglySorted R l1 -> StronglySorted R l2 -> l1 = l2.
Proof.
  intros Hasym l1. induction l1 as [|a t1 IH]; intros l2 Hp H1 H2.
  - symmetry. now apply Permutation_nil.
  - destruct l2 as [|b t2].
    + apply Permutation_sym, Permutation_nil in Hp. discriminate.
    + apply StronglySorted_inv in H1 as [H1 F1].
      apply StronglySorted_inv in H2 as [H2 F2].
      assert (a = b) as <-.
      { destruct (Permutation_in a Hp (or_introl eq_refl)) as [|Ha]; [congruence|].
        destruct (Permutation_in b (Permutation_sym Hp) (or_introl eq_refl)) as [|Hb];
          [congruence|].
        rewrite Forall_forall in F1, F2.
        exfalso. exact (Hasym _ _ (F1 _ Hb) (F2 _ Ha)). }
      f_equal. apply IH; auto. now apply Permutation_cons_inv in Hp.
Qed.

Lemma path_lt_asym (a b : MKeyAndNetworkCard) : path_lt a b -> path_lt b a -> False.
Proof.
  unfold path_lt. rewrite !string_ltb_iff. intros H1 H2.
  rewrite String.compare_antisym, H2 in H1. discriminate.
Qed.

Lemma inSelectedNetworks_spec (sel : list MmNetwork) (c : MKeyAndNetworkCard) :
  inSelectedNetworks sel c
  = (if in_dec string_dec (networkSpecsKey (network c)) (map network_key sel) then true else false).
Proof.
  unfold inSelectedNetworks.
  destruct (in_dec string_dec _ _) as [Hin | Hnin].
  - apply existsb_exists. exists (networkSpecsKey (network c)). split; auto.
    apply String.eqb_refl.
  - apply Bool.not_true_is_false. intros H. apply existsb_exists in H as [k [Hk Heq]].
    apply String.eqb_eq in Heq. subst. contradiction.
Qed.

Lemma projectDerivedKeys_spec (sel : list MmNetwork) (cards : list MKeyAndNetworkCard) :
  projectDerivedKeys sel cards = spec_projection sel (sorted_by pathLess cards).
Proof.
  unfold projectDerivedKeys, spec_projection. f_equal.
  destruct (isEmpty sel) eqn:E; simpl.
  - induction (sorted_by pathLess cards) as [|c l IH]; simpl; [reflexivity|]. now f_equal.
  - apply filter_ext. intros c. apply inSelectedNetworks_spec.
Qed.

Lemma sorted_by_strict (cards : list MKeyAndNetworkCard) :
  NoDup (map path_of cards) -> StronglySorted path_lt (sorted_by pathLess cards).
Proof.
  intros Hnd. apply strongly_sorted_strict.
  - apply Sorted_StronglySorted; [exact path_le_trans | apply sorted_by_sorted].
  - eapply Permutation_NoDup; [|exact Hnd].
    apply Permutation_map, Permutation_sym, sorted_by_perm.
Qed.

Lemma derivedKeys_refresh (s : ViewModel) (ks : MKeysNew) :
  keysData s = Some ks ->
  derivedKeys (refreshDerivedKeys s) = projectDerivedKeys (selectedNetworks s) (set ks).
Proof. intros H. unfold refreshDerivedKeys. now rewrite H. Qed.

(** ** C1 *)

(** Claim C1: for a stored key set and any network filter, [refreshDerivedKeys]
    stores exactly the rows of the key set's records sorted by derivation path
    (lexicographic order; a permutation of the records, in non-decreasing path
    order, and with unique paths the only strictly increasing arrangement),
    restricted to the filter's networks when the filter is non-empty, each
    mapped to a row; paths ["//1","//0","//2"] with an empty filter give rows
    ["//0","//1","//2"]. *)
Theorem refreshDerivedKeys_projection (s : ViewModel) (ks : MKeysNew) :
  keysData s = Some ks ->
  derivedKeys (refreshDerivedKeys s)
    = spec_projection (selectedNetworks s) (sorted_by pathLess (set ks))
  /\ Permutation (sorted_by pathLess (set ks)) (set ks)
  /\ Sorted path_le (sorted_by pathLess (set ks))
  /\ (NoDup (map path_of (set ks)) ->
      forall l, Permutation l (set ks) -> StronglySorted path_lt l ->
      derivedKeys (refreshDerivedKeys s) = spec_projection (selectedNetworks s) l)
  /\ rowPaths (derivedKeys (refreshDerivedKeys
                 (set_selectedNetworks [] (set_keysData (Some keysUnsorted) s))))
     = ["//0"; "//1"; "//2"].
Proof.
  intros Hks.
  assert (Hd : derivedKeys (refreshDerivedKeys s)
               = spec_projection (selectedNetworks s) (sorted_by pathLess (set ks)))
    by (rewrite (derivedKeys_refresh s ks Hks); apply projectDerivedKeys_spec).
  split; [exact Hd|]. split; [apply sorted_by_perm|]. split; [apply sorted_by_sorted|].
  split; [|reflexivity].
  intros Hnd l Hp Hl. rewrite Hd. f_equal.
  apply (strongly_sorted_perm_eq path_lt path_lt_asym); auto.
  - rewrite sorted_by_perm. now apply Permutation_sym.
  - now apply sorted_by_strict.
Qed.

Lemma refreshDerivedKeys_projection_witness :
  keysData (init "Alice" (Some keysUnsorted) [] []) = Some keysUnsorted
  /\ derivedKeys (refreshDerivedKeys (init "Alice" (Some keysUnsorted) [] []))
     = spec_projection [] (sorted_by pathLess (set keysUnsorted)).
Proof.
  split; [reflexivity|].
  assert (H : keysData (init "Alice" (Some keysUnsorted) [] []) = Some keysUnsorted)
    by reflexivity.
  exact (proj1 (refreshDerivedKeys_projection _ keysUnsorted H)).
Defined.

(** ** C2 *)

(** Claim C2: when the key-set fetch of [refreshData] fails with a
    description, the completion shows the error (flag set, [alertError] with
    that description) and leaves the stored key set, [derivedKeys],
    [keySummary] and [viewState] as they were; with "timeout" the message is
    "timeout". *)
Theorem refreshData_failure_keeps_data (s : ViewModel) (description : string) :
  let s' := refreshData_completion (failure description) s in
  isPresentingError s' = true
  /\ presentableError s' = alertError description
  /\ keysData s' = keysData s
  /\ derivedKeys s' = derivedKeys s
  /\ keySummary s' = keySummary s
  /\ viewState s' = viewState s
  /\ presentableError (refreshData_completion (failure "timeout") s) = alertError "timeout".
Proof. simpl. repeat split. Qed.

(** ** C3 *)

Lemma onNetworkSelectionTap_failure_noop (s : ViewModel) (e : string) :
  onNetworkSelectionTap_completion (failure e) s = s.
Proof. reflexivity. Qed.

(** Claim C3 (evaluation at the failing input): [refreshNetworks] surfaces a
    failed [getNetworks] with the error flag and [alertError], but the
    completion of [onNetworkSelectionTap] for the same service call drops a
    "timeout" failure: the state, including the error flag, is unchanged. *)
Theorem onNetworkSelectionTap_drops_failure :
  let s := init "Alice" (Some keysUnsorted) [] [] in
  onNetworkSelectionTap_completion (failure "timeout") s = s
  /\ isPresentingError (onNetworkSelectionTap_completion (failure "timeout") s) = false
  /\ isPresentingError (refreshNetworks_completion (failure "timeout") s) = true
  /\ presentableError (refreshNetworks_completion (failure "timeout") s) = alertError "timeout"
  /\ isPresentingError (refreshData_completion (failure "timeout") s) = true.
Proof. repeat split. Qed.

(** ** Invariant of [viewState] *)

Lemma consistent_ext (s s' : ViewModel) :
  keysData s' = keysData s -> derivedKeys s' = derivedKeys s -> viewState s' = viewState s ->
  viewStateConsistent s -> viewStateConsistent s'.
Proof. unfold viewStateConsistent. intros -> -> -> H. exact H. Qed.

Lemma refreshDerivedKeys_viewState (s : ViewModel) (ks : MKeysNew) :
  keysData s = Some ks ->
  viewState (refreshDerivedKeys s)
  = (if isEmpty (projectDerivedKeys (selectedNetworks s) (set ks))
     then ViewState.emptyState else ViewState.list).
Proof. intros H. unfold refreshDerivedKeys. now rewrite H. Qed.

Lemma refresh_establishes (s : ViewModel) :
  keysData s <> None -> viewStateConsistent (refreshDerivedKeys s).
Proof.
  intros Hn _. destruct (keysData s) as [ks|] eqn:E; [|congruence].
  rewrite (refreshDerivedKeys_viewState s ks E), (derivedKeys_refresh s ks E).
  destruct (projectDerivedKeys (selectedNetworks s) (set ks)); simpl; split; congruence.
Qed.

Lemma refreshDerivedKeys_keysData (s : ViewModel) : keysData (refreshDerivedKeys s) = keysData s.
Proof. unfold refreshDerivedKeys. destruct (keysData s) eqn:E; simpl; congruence. Qed.

Lemma consistent_refresh (s : ViewModel) :
  viewStateConsistent s -> viewStateConsistent (refreshDerivedKeys s).
Proof.
  intros H. destruct (keysData s) eqn:E.
  - apply refresh_establishes. congruence.
  - unfold refreshDerivedKeys. now rewrite E.
Qed.

Lemma consistent_summary (s : ViewModel) :
  viewStateConsistent s -> viewStateConsistent (refreshKeySummary s).
Proof.
  intros H. unfold refreshKeySummary. destruct (keysData s); [|exact H].
  eapply consistent_ext; [reflexivity..|exact H].
Qed.

Ltac same_fields := eapply consistent_ext; [reflexivity | reflexivity | reflexivity | assumption].

Lemma consistent_step (co : Collaborators) (e : Event) (s : ViewModel) :
  viewStateConsistent s -> viewStateConsistent (step co e s).
Proof.
  intros H. destruct e as [[ks|d]|[n|d]|[n|d]|[]|l|b| |row]; simpl.
  - apply consistent_summary, refresh_establishes. simpl. congruence.
  - same_fields.
  - same_fields.
  - same_fields.
  - same_fields.
  - exact H.
  - same_fields.
  - eapply consistent_ext; [reflexivity..|].
    apply consistent_refresh. same_fields.
  - same_fields.
  - same_fields.
  - unfold onRemoveKeySetConfirmationTap.
    destruct (removeSeedFn co (removeSeed s)); simpl; [same_fields | exact H].
  - unfold onDerivedKeyTap.
    destruct (isPresentingSelectionOverlay s); [same_fields|].
    destruct (navigateToPublicKey co (keyName s) (row_publicKeyDetails row)); [same_fields|exact H].
Qed.

Lemma consistent_run (co : Collaborators) (evs : list Event) (s : ViewModel) :
  viewStateConsistent s -> viewStateConsistent (run co evs s).
Proof.
  revert s. induction evs as [|e evs IH]; simpl; intros s H; [exact H|].
  apply IH, consistent_step, H.
Qed.

Lemma consistent_init (name : string) (kd : option MKeysNew) (alln sel : list MmNetwork) :
  viewStateConsistent (init name kd alln sel).
Proof.
  unfold init. simpl networkChanges_sink. cbv beta iota.
  destruct kd as [ks|].
  - apply refresh_establishes. unfold updateRenderables, refreshKeySummary, refreshDerivedKeys.
    simpl. discriminate.
  - intros Hn. exfalso. apply Hn. reflexivity.
Qed.

(** ** C4 *)

(** Claim C4: for a stored key set and any network filter, after the
    projection [viewState] is [emptyState] exactly when the projected rows are
    empty and [list] otherwise; and in every state reachable from [init] by
    any sequence of events, once a key set is stored, [viewState] is
    [emptyState] exactly when [derivedKeys] is empty. *)
Theorem viewState_emptyState_iff (s : ViewModel) (ks : MKeysNew) :
  keysData s = Some ks ->
  (viewState (refreshDerivedKeys s) = ViewState.emptyState
     <-> projectDerivedKeys (selectedNetworks s) (set ks) = [])
  /\ (viewState (refreshDerivedKeys s) = ViewState.list
      <-> projectDerivedKeys (selectedNetworks s) (set ks) <> [])
  /\ derivedKeys (refreshDerivedKeys s) = projectDerivedKeys (selectedNetworks s) (set ks)
  /\ (forall co name kd alln sel evs,
        viewStateConsistent (run co evs (init name kd alln sel))).
Proof.
  intros H. rewrite (refreshDerivedKeys_viewState s ks H).
  split; [|split; [|split]].
  - destruct (projectDerivedKeys _ _); simpl; split; congruence.
  - destruct (projectDerivedKeys _ _); simpl; split; congruence.
  - now apply derivedKeys_refresh.
  - intros. apply consistent_run, consistent_init.
Qed.

Lemma viewState_emptyState_iff_witness :
  keysData (init "Alice" (Some keysTwoNetworks) [] [mmA]) = Some keysTwoNetworks
  /\ derivedKeys (refreshDerivedKeys (init "Alice" (Some keysTwoNetworks) [] [mmA]))
     = projectDerivedKeys [mmA] (set keysTwoNetworks).
Proof.
  assert (H : keysData (init "Alice" (Some keysTwoNetworks) [] [mmA]) = Some keysTwoNetworks)
    by reflexivity.
  split; [exact H|].
  exact (proj1 (proj2 (proj2 (viewState_emptyState_iff _ keysTwoNetworks H)))).
Defined.

(** ** C5 *)

(** Claim C5: [onRemoveKeySetConfirmationTap] asks the seed mediator to remove
    the seed; when it answers true, one dismiss request and one
    [keySetDeleted] completion are emitted (and the key set is forgotten in the
    navigation state); when it answers false the view-model is left exactly
    as it was: no signal, no error. *)
Theorem onRemoveKeySetConfirmationTap_spec (co : Collaborators) (s : ViewModel) :
  let s' := onRemoveKeySetConfirmationTap co s in
  if removeSeedFn co (removeSeed s) then
    dismissRequests s' = S (dismissRequests s)
    /\ completions s' = (completions s ++ [keySetDeleted])%list
    /\ actionLog s' = (actionLog s ++ [forgetKeySetAction (keyName s)])%list
    /\ isPresentingError s' = isPresentingError s
    /\ keysData s' = keysData s
    /\ derivedKeys s' = derivedKeys s
  else s' = s.
Proof.
  simpl. unfold onRemoveKeySetConfirmationTap.
  destruct (removeSeedFn co (removeSeed s)); simpl; repeat split.
Qed.

(** ** C6 *)

Lemma containsRow_In (x : DerivedKeyRowModel) (l : list DerivedKeyRowModel) :
  containsRow x l = true <-> In x l.
Proof.
  unfold containsRow. rewrite existsb_exists. split.
  - intros [y [Hy Heq]]. destruct (DerivedKeyRowModel_eq_dec y x); congruence.
  - intros Hx. exists x. split; [exact Hx|]. now destruct (DerivedKeyRowModel_eq_dec x x).
Qed.

Lemma removeAllRow_In (x y : DerivedKeyRowModel) (l : list DerivedKeyRowModel) :
  In y (removeAllRow x l) <-> In y l /\ y <> x.
Proof.
  unfold removeAllRow. rewrite filter_In.
  destruct (DerivedKeyRowModel_eq_dec y x); intuition congruence.
Qed.

Lemma removeAllRow_absent (x : DerivedKeyRowModel) (l : list DerivedKeyRowModel) :
  ~ In x l -> removeAllRow x l = l.
Proof.
  induction l as [|y l IH]; simpl; intros Hn; [reflexivity|].
  destruct (DerivedKeyRowModel_eq_dec y x) as [->|]; [exfalso; auto|].
  f_equal. auto.
Qed.

Lemma removeAllRow_append_absent (x : DerivedKeyRowModel) (l : list DerivedKeyRowModel) :
  ~ In x l -> removeAllRow x (l ++ [x]) = l.
Proof.
  intros Hn. unfold removeAllRow. rewrite filter_app.
  fold (removeAllRow x l). rewrite (removeAllRow_absent _ _ Hn). simpl.
  destruct (DerivedKeyRowModel_eq_dec x x); [|congruence].
  apply app_nil_r.
Qed.

(** Claim C6: in selection mode a tap on a row removes every copy of the row
    from [selectedKeys] when it is a member and appends it otherwise; two taps
    on the same row give back a selection with the same members (the
    symmetric difference with the original is empty). *)
Theorem onDerivedKeyTap_toggle_twice (co : Collaborators) (s : ViewModel) (row : DerivedKeyRowModel) :
  isPresentingSelectionOverlay s = true ->
  let s1 := onDerivedKeyTap co row s in
  let s2 := onDerivedKeyTap co row s1 in
  (forall x, In x (selectedKeys s2) <-> In x (selectedKeys s))
  /\ (In row (selectedKeys s) ->
      forall x, In x (selectedKeys s1) <-> In x (selectedKeys s) /\ x <> row)
  /\ (~ In row (selectedKeys s) -> selectedKeys s1 = (selectedKeys s ++ [row])%list).
Proof.
  intros Hsel. simpl. unfold onDerivedKeyTap. rewrite Hsel. simpl. rewrite Hsel.
  unfold toggleSelectedKeys. simpl.
  destruct (containsRow row (selectedKeys s)) eqn:E.
  - apply containsRow_In in E.
    assert (Hn : containsRow row (removeAllRow row (selectedKeys s)) = false).
    { apply Bool.not_true_is_false. rewrite containsRow_In, removeAllRow_In. tauto. }
    rewrite Hn. split; [|split].
    + intros x. rewrite in_app_iff, removeAllRow_In. simpl.
      split; [intros [[Hx _] | [<- | []]]; auto|].
      intros Hx. destruct (DerivedKeyRowModel_eq_dec x row); [right; left; congruence|].
      left. auto.
    + intros _ x. apply removeAllRow_In.
    + intros Hn'. contradiction.
  - assert (Hn : ~ In row (selectedKeys s)) by (rewrite <- containsRow_In; congruence).
    assert (Hc : containsRow row (selectedKeys s ++ [row]) = true)
      by (apply containsRow_In, in_app_iff; right; left; reflexivity).
    rewrite Hc. split; [|split].
    + intros x. rewrite (removeAllRow_append_absent _ _ Hn). tauto.
    + intros Hin. contradiction.
    + intros _. reflexivity.
Qed.

Lemma onDerivedKeyTap_toggle_twice_witness :
  let s := set_isPresentingSelectionOverlay true (init "Alice" (Some keysUnsorted) [] []) in
  let row := mkDerivedKeyRowModel (card "//0" networkA) in
  isPresentingSelectionOverlay s = true
  /\ (forall x, In x (selectedKeys (onDerivedKeyTap noCollaborators row
                                     (onDerivedKeyTap noCollaborators row s)))
                <-> In x (selectedKeys s)).
Proof.
  intros s row.
  assert (H : isPresentingSelectionOverlay s = true) by reflexivity.
  split; [exact H|].
  exact (proj1 (onDerivedKeyTap_toggle_twice noCollaborators s row H)).
Defined.

(** ** C7 *)

(** Claim C7: two successful completions of [refreshData] with the same key
    set (with any [refreshNetworks] completion in between) leave [derivedKeys],
    [keySummary] and [viewState] as the first one set them. *)
Theorem refreshData_idempotent (s : ViewModel) (ks : MKeysNew) (rn : Result (list MmNetwork)) :
  let s1 := refreshData_completion (success ks) s in
  let s2 := refreshData_completion (success ks) (refreshNetworks_completion rn s1) in
  derivedKeys s2 = derivedKeys s1 /\ keySummary s2 = keySummary s1 /\ viewState s2 = viewState s1.
Proof. destruct rn; repeat split. Qed.

(** ** C8 *)

(** Claim C8: outside selection mode a tap on a row asks
    [navigateToPublicKey(keyName, publicKeyDetails)]; when it declines the
    view-model is unchanged (no navigation, no error); when it returns key
    details they are presented with the row's public-key details and the key
    details screen is shown, the selection untouched.  In selection mode the
    tap only changes [selectedKeys], whatever the collaborator would answer. *)
Theorem onDerivedKeyTap_dispatch (co : Collaborators) (s : ViewModel) (row : DerivedKeyRowModel) :
  isPresentingSelectionOverlay s = false ->
  let s' := onDerivedKeyTap co row s in
  match navigateToPublicKey co (keyName s) (row_publicKeyDetails row) with
  | None => s' = s
  | Some kd =>
      presentedKeyDetails s' = Some kd
      /\ presentedPublicKeyDetails s' = Some (row_publicKeyDetails row)
      /\ isPresentingKeyDetails s' = true
      /\ selectedKeys s' = selectedKeys s
      /\ isPresentingError s' = isPresentingError s
  end
  /\ (forall co', onDerivedKeyTap co' row (set_isPresentingSelectionOverlay true s)
                  = set_selectedKeys (toggleSelectedKeys row (selectedKeys s))
                      (set_isPresentingSelectionOverlay true s)).
Proof.
  intros Hsel. simpl. split; [|reflexivity].
  unfold onDerivedKeyTap. rewrite Hsel.
  destruct (navigateToPublicKey co (keyName s) (row_publicKeyDetails row)); repeat split.
Qed.

Lemma onDerivedKeyTap_dispatch_witness :
  let s := init "Alice" (Some keysUnsorted) [] [] in
  isPresentingSelectionOverlay s = false
  /\ onDerivedKeyTap noCollaborators (mkDerivedKeyRowModel (card "//0" networkA)) s = s.
Proof.
  intros s.
  assert (H : isPresentingSelectionOverlay s = false) by reflexivity.
  split; [exact H|].
  exact (proj1 (onDerivedKeyTap_dispatch noCollaborators s
                  (mkDerivedKeyRowModel (card "//0" networkA)) H)).
Defined.

(** ** C9 *)

(** Claim C9: closing the network-selection overlay (assigning false) sets
    [isFilteringActive] to whether the shared selected networks are non-empty
    and re-runs the projection; with the filter {A} over keys on networks
    {A, B}, only the network-A row remains and filtering is active. *)
Theorem networkSelection_dismissed (s : ViewModel) :
  let s' := assign_isPresentingNetworkSelection false s in
  isFilteringActive s' = negb (isEmpty (selectedNetworks s))
  /\ isPresentingNetworkSelection s' = false
  /\ derivedKeys s' = derivedKeys (refreshDerivedKeys s)
  /\ viewState s' = viewState (refreshDerivedKeys s)
  /\ (forall ks, keysData s = Some ks ->
        derivedKeys s' = projectDerivedKeys (selectedNetworks s) (set ks))
  /\ (let t := run noCollaborators
                 [NetworkSelectionPresented true; SelectedNetworksChanged [mmA];
                  NetworkSelectionPresented false]
                 (init "Alice" (Some keysTwoNetworks) [] []) in
      rowPaths (derivedKeys t) = ["//a"] /\ isFilteringActive t = true).
Proof.
  simpl. unfold refreshDerivedKeys. simpl.
  split; [destruct (keysData s); reflexivity|].
  split; [destruct (keysData s); reflexivity|].
  split; [destruct (keysData s); reflexivity|].
  split; [destruct (keysData s); reflexivity|].
  split.
  - intros ks ->. reflexivity.
  - split; vm_compute; reflexivity.
Qed.

(** ** C10 *)

Lemma noKeySetShown_ext (s s' : ViewModel) :
  keysData s' = keysData s -> viewState s' = viewState s -> derivedKeys s' = derivedKeys s ->
  keySummary s' = keySummary s -> noKeySetShown s -> noKeySetShown s'.
Proof. unfold noKeySetShown. intros -> -> -> -> H. exact H. Qed.

Lemma refresh_none (s : ViewModel) :
  keysData s = None -> refreshDerivedKeys s = s /\ refreshKeySummary s = s.
Proof. intros H. unfold refreshDerivedKeys, refreshKeySummary. now rewrite H. Qed.

Lemma noKeySetShown_refresh (s : ViewModel) :
  noKeySetShown s -> noKeySetShown (refreshDerivedKeys s).
Proof. intros H. now rewrite (proj1 (refresh_none s (proj1 H))). Qed.

Ltac same_shown := eapply noKeySetShown_ext; [reflexivity.. | assumption].

Lemma noKeySetShown_step (co : Collaborators) (e : Event) (s : ViewModel) :
  isSuccessfulKeysFetch e = false -> noKeySetShown s -> noKeySetShown (step co e s).
Proof.
  intros He H. destruct e as [[ks|d]|[n|d]|[n|d]|[]|l|b| |row]; simpl in He;
    try discriminate; simpl.
  - same_shown.
  - same_shown.
  - same_shown.
  - same_shown.
  - exact H.
  - same_shown.
  - eapply noKeySetShown_ext; [reflexivity..|].
    apply noKeySetShown_refresh. same_shown.
  - same_shown.
  - same_shown.
  - unfold onRemoveKeySetConfirmationTap.
    destruct (removeSeedFn co (removeSeed s)); simpl; [same_shown | exact H].
  - unfold onDerivedKeyTap.
    destruct (isPresentingSelectionOverlay s); [same_shown|].
    destruct (navigateToPublicKey co (keyName s) (row_publicKeyDetails row)); [same_shown|exact H].
Qed.

Lemma noKeySetShown_run (co : Collaborators) (evs : list Event) (s : ViewModel) :
  forallb (fun e => negb (isSuccessfulKeysFetch e)) evs = true ->
  noKeySetShown s -> noKeySetShown (run co evs s).
Proof.
  revert s. induction evs as [|e evs IH]; simpl; intros s Hall H; [exact H|].
  apply andb_true_iff in Hall as [He Hall].
  apply IH; [exact Hall|]. apply noKeySetShown_step; [|exact H].
  now apply negb_true_iff in He.
Qed.

(** Claim C10: while no key set is stored, [refreshDerivedKeys],
    [refreshKeySummary] and [updateRenderables] leave the view-model as it is;
    a view-model built with no key-set data shows [viewState = list] (not
    [emptyState]), no rows and no summary, and keeps showing them through any
    events until a key-set fetch succeeds. *)
Theorem refresh_without_keysData_noop (s : ViewModel) :
  keysData s = None ->
  refreshDerivedKeys s = s /\ refreshKeySummary s = s /\ updateRenderables s = s
  /\ (forall co name alln sel evs,
        forallb (fun e => negb (isSuccessfulKeysFetch e)) evs = true ->
        noKeySetShown (run co evs (init name None alln sel))).
Proof.
  intros H. destruct (refresh_none s H) as [H1 H2].
  split; [exact H1|]. split; [exact H2|]. split.
  - unfold updateRenderables. now rewrite H1, H2.
  - intros co name alln sel evs Hall. apply noKeySetShown_run; [exact Hall|].
    repeat split.
Qed.

Lemma refresh_without_keysData_noop_witness :
  keysData (init "Alice" None [] []) = None
  /\ refreshDerivedKeys (init "Alice" None [] []) = init "Alice" None [] [].
Proof.
  assert (H : keysData (init "Alice" None [] []) = None) by reflexivity.
  split; [exact H|].
  exact (proj1 (refresh_without_keysData_noop _ H)).
Defined.

(** * Further properties of the view-model *)

(** ** The projection *)

Lemma spec_filter_iff (sel : list MmNetwork) (c : MKeyAndNetworkCard) :
  (isEmpty sel
   || (if in_dec string_dec (networkSpecsKey (network c)) (map network_key sel) then true else false))
  = true <-> isEmpty sel = true \/ In (networkSpecsKey (network c)) (map network_key sel).
Proof.
  rewrite orb_true_iff.
  destruct (in_dec string_dec _ _); intuition congruence.
Qed.

(** The rows of the projection: one per record of the key set whose network
    passes the filter (every record when the filter is empty), each row
    built from its record. *)
Theorem projectDerivedKeys_In (sel : list MmNetwork) (cards : list MKeyAndNetworkCard)
  (r : DerivedKeyRowModel) :
  In r (projectDerivedKeys sel cards)
  <-> exists c, r = mkDerivedKeyRowModel c /\ In c cards
          /\ (isEmpty sel = true \/ In (networkSpecsKey (network c)) (map network_key sel)).
Proof.
  rewrite projectDerivedKeys_spec. unfold spec_projection.
  rewrite in_map_iff. split.
  - intros [c [<- Hc]]. apply filter_In in Hc as [Hc Hf].
    exists c. split; [reflexivity|]. split.
    + eapply Permutation_in; [apply sorted_by_perm | exact Hc].
    + now apply spec_filter_iff.
  - intros [c [-> [Hc Hf]]]. exists c. split; [reflexivity|].
    apply filter_In. split.
    + eapply Permutation_in; [apply Permutation_sym, sorted_by_perm | exact Hc].
    + now apply spec_filter_iff.
Qed.

(** The projection never has more rows than the key set has records, and
    exactly as many when the filter is empty. *)
Theorem projectDerivedKeys_length (sel : list MmNetwork) (cards : list MKeyAndNetworkCard) :
  length (projectDerivedKeys sel cards) <= length cards
  /\ (isEmpty sel = true -> length (projectDerivedKeys sel cards) = length cards).
Proof.
  unfold projectDerivedKeys. rewrite length_map.
  rewrite <- (Permutation_length (sorted_by_perm pathLess cards)).
  split.
  - destruct (isEmpty sel); [lia | apply filter_length_le].
  - intros ->. reflexivity.
Qed.

Lemma StronglySorted_filter {A} (R : A -> A -> Prop) (f : A -> bool) (l : list A) :
  StronglySorted R l -> StronglySorted R (filter f l).
Proof.
  induction 1 as [|a l Hs IH Hf]; simpl; [constructor|].
  destruct (f a); [|exact IH].
  constructor; [exact IH|].
  rewrite Forall_forall in *. intros x Hx. apply filter_In in Hx. now apply Hf.
Qed.

Lemma StronglySorted_map_rows (l : list MKeyAndNetworkCard) :
  StronglySorted path_le l ->
  StronglySorted (fun r1 r2 => path_le (keyData r1) (keyData r2)) (map mkDerivedKeyRowModel l).
Proof.
  induction 1 as [|a l Hs IH Hf]; simpl; constructor; [exact IH|].
  apply Forall_map. exact Hf.
Qed.

(** Whatever the filter, the rows are in non-decreasing path order. *)
Theorem projectDerivedKeys_sorted (sel : list MmNetwork) (cards : list MKeyAndNetworkCard) :
  Sorted (fun r1 r2 => path_le (keyData r1) (keyData r2)) (projectDerivedKeys sel cards).
Proof.
  apply StronglySorted_Sorted. unfold projectDerivedKeys.
  apply StronglySorted_map_rows.
  assert (Hs : StronglySorted path_le (sorted_by pathLess cards))
    by (apply Sorted_StronglySorted; [exact path_le_trans | apply sorted_by_sorted]).
  destruct (isEmpty sel); [exact Hs|]. now apply StronglySorted_filter.
Qed.

Lemma sorted_by_perm_eq (c1 c2 : list MKeyAndNetworkCard) :
  Permutation c1 c2 -> NoDup (map path_of c1) -> sorted_by pathLess c1 = sorted_by pathLess c2.
Proof.
  intros Hp Hnd.
  apply (strongly_sorted_perm_eq path_lt path_lt_asym).
  - rewrite !sorted_by_perm. exact Hp.
  - now apply sorted_by_strict.
  - apply sorted_by_strict. eapply Permutation_NoDup; [|exact Hnd].
    now apply Permutation_map.
Qed.

(** With unique derivation paths the rows do not depend on the order in
    which the key set lists its records. *)
Theorem projectDerivedKeys_perm_invariant (sel : list MmNetwork) (c1 c2 : list MKeyAndNetworkCard) :
  Permutation c1 c2 -> NoDup (map path_of c1) ->
  projectDerivedKeys sel c1 = projectDerivedKeys sel c2.
Proof. intros Hp Hnd. unfold projectDerivedKeys. now rewrite (sorted_by_perm_eq c1 c2 Hp Hnd). Qed.

Lemma projectDerivedKeys_perm_invariant_witness :
  Permutation (set keysUnsorted) [card "//0" networkA; card "//1" networkA; card "//2" networkA]
  /\ NoDup (map path_of (set keysUnsorted))
  /\ projectDerivedKeys [] (set keysUnsorted)
     = projectDerivedKeys [] [card "//0" networkA; card "//1" networkA; card "//2" networkA].
Proof.
  assert (Hp : Permutation (set keysUnsorted)
                 [card "//0" networkA; card "//1" networkA; card "//2" networkA])
    by (simpl; apply perm_swap).
  assert (Hnd : NoDup (map path_of (set keysUnsorted))).
  { simpl. repeat constructor; simpl; intuition discriminate. }
  split; [exact Hp|]. split; [exact Hnd|].
  exact (projectDerivedKeys_perm_invariant [] _ _ Hp Hnd).
Defined.

Lemma find_unique_key (l : list MKeyAndNetworkCard) (c : MKeyAndNetworkCard) :
  NoDup (map path_of l) -> In c l ->
  find (fun x => String.eqb (path_of x) (path_of c)) l = Some c.
Proof.
  induction l as [|x l IH]; simpl; intros Hnd Hc; [contradiction|].
  inversion Hnd as [|? ? Hnin Hnd']; subst.
  destruct (String.eqb (path_of x) (path_of c)) eqn:E.
  - apply String.eqb_eq in E. destruct Hc as [-> | Hc]; [reflexivity|].
    exfalso. apply Hnin. rewrite E. now apply in_map.
  - destruct Hc as [-> | Hc]; [now rewrite String.eqb_refl in E|]. now apply IH.
Qed.

(** [keyData(for:)] finds, for every row that [refreshDerivedKeys] stored,
    the very record the row was built from, when paths are unique. *)
Theorem keyData_for_refreshed_row (s : ViewModel) (ks : MKeysNew) (r : DerivedKeyRowModel) :
  keysData s = Some ks -> NoDup (map path_of (set ks)) ->
  In r (derivedKeys (refreshDerivedKeys s)) ->
  keyData_for (refreshDerivedKeys s) r = Some (keyData r).
Proof.
  intros Hk Hnd Hr. rewrite (derivedKeys_refresh s ks Hk) in Hr.
  apply projectDerivedKeys_In in Hr as [c [-> [Hc _]]].
  unfold keyData_for. rewrite refreshDerivedKeys_keysData, Hk. simpl.
  now apply find_unique_key.
Qed.

Lemma keyData_for_refreshed_row_witness :
  let s := init "Alice" (Some keysUnsorted) [] [] in
  keysData s = Some keysUnsorted /\ NoDup (map path_of (set keysUnsorted))
  /\ In (mkDerivedKeyRowModel (card "//2" networkA)) (derivedKeys (refreshDerivedKeys s))
  /\ keyData_for (refreshDerivedKeys s) (mkDerivedKeyRowModel (card "//2" networkA))
     = Some (card "//2" networkA).
Proof.
  intros s.
  assert (Hk : keysData s = Some keysUnsorted) by reflexivity.
  assert (Hnd : NoDup (map path_of (set keysUnsorted))).
  { simpl. repeat constructor; simpl; intuition discriminate. }
  assert (Hr : In (mkDerivedKeyRowModel (card "//2" networkA)) (derivedKeys (refreshDerivedKeys s)))
    by (vm_compute; right; right; left; reflexivity).
  split; [exact Hk|]. split; [exact Hnd|]. split; [exact Hr|].
  exact (keyData_for_refreshed_row s keysUnsorted _ Hk Hnd Hr).
Defined.

(** ** Invariants of the reachable states *)

Ltac step_cases e :=
  destruct e as [[?ks|?d]|[?n|?d]|[?n|?d]|[]|?l|?b| |?row].

Lemma init_unfold (name : string) (kd : option MKeysNew) (alln sel : list MmNetwork) :
  init name kd alln sel
  = refreshDerivedKeys (updateRenderables (use_sink false (initialFields name kd alln sel))).
Proof. destruct kd; reflexivity. Qed.

Lemma refreshDerivedKeys_signals (s : ViewModel) :
  dismissRequests (refreshDerivedKeys s) = dismissRequests s
  /\ completions (refreshDerivedKeys s) = completions s
  /\ actionLog (refreshDerivedKeys s) = actionLog s.
Proof. unfold refreshDerivedKeys. destruct (keysData s); auto. Qed.

Lemma refreshKeySummary_signals (s : ViewModel) :
  dismissRequests (refreshKeySummary s) = dismissRequests s
  /\ completions (refreshKeySummary s) = completions s
  /\ actionLog (refreshKeySummary s) = actionLog s.
Proof. unfold refreshKeySummary. destruct (keysData s); auto. Qed.

Lemma signals_ext (s s' : ViewModel) :
  dismissRequests s' = dismissRequests s -> completions s' = completions s ->
  actionLog s' = actionLog s -> signalsPaired s -> signalsPaired s'.
Proof. unfold signalsPaired. intros -> -> -> H. exact H. Qed.

Lemma signals_refresh (s : ViewModel) : signalsPaired s -> signalsPaired (refreshDerivedKeys s).
Proof. destruct (refreshDerivedKeys_signals s) as (H1 & H2 & H3). now apply signals_ext. Qed.

Lemma signals_summary (s : ViewModel) : signalsPaired s -> signalsPaired (refreshKeySummary s).
Proof. destruct (refreshKeySummary_signals s) as (H1 & H2 & H3). now apply signals_ext. Qed.

Ltac same_signals := eapply signals_ext; [reflexivity | reflexivity | reflexivity | assumption].

Lemma signalsPaired_step (co : Collaborators) (e : Event) (s : ViewModel) :
  signalsPaired s -> signalsPaired (step co e s).
Proof.
  intros H. step_cases e; simpl.
  - apply signals_summary, signals_refresh. same_signals.
  - same_signals.
  - same_signals.
  - same_signals.
  - same_signals.
  - exact H.
  - same_signals.
  - eapply signals_ext; [reflexivity..|]. apply signals_refresh. same_signals.
  - same_signals.
  - same_signals.
  - unfold onRemoveKeySetConfirmationTap.
    destruct (removeSeedFn co (removeSeed s)); simpl; [|exact H].
    destruct H as [H1 H2]. unfold signalsPaired. simpl.
    rewrite !length_app. simpl. lia.
  - unfold onDerivedKeyTap.
    destruct (isPresentingSelectionOverlay s); [same_signals|].
    destruct (navigateToPublicKey co (keyName s) (row_publicKeyDetails row));
      [same_signals|exact H].
Qed.

(** In every state reachable from [init], each dismiss request was sent
    together with exactly one [keySetDeleted] completion and one
    [forgetKeySetAction]. *)
Theorem signalsPaired_reachable (co : Collaborators) (name : string) (kd : option MKeysNew)
  (alln sel : list MmNetwork) (evs : list Event) :
  signalsPaired (run co evs (init name kd alln sel)).
Proof.
  assert (H0 : signalsPaired (init name kd alln sel)).
  { rewrite init_unfold. apply signals_refresh. unfold updateRenderables.
    apply signals_summary, signals_refresh. split; reflexivity. }
  revert H0. generalize (init name kd alln sel).
  induction evs as [|e evs IH]; simpl; intros s H; [exact H|].
  apply IH, signalsPaired_step, H.
Qed.

Lemma rows_refresh_some (s : ViewModel) :
  keysData s <> None -> rowsFromKeySet (refreshDerivedKeys s).
Proof.
  intros Hn r Hr. destruct (keysData s) as [ks|] eqn:E; [|congruence].
  rewrite (derivedKeys_refresh s ks E) in Hr.
  apply projectDerivedKeys_In in Hr as [c [-> [Hc _]]].
  exists ks. rewrite refreshDerivedKeys_keysData. auto.
Qed.

Lemma rows_ext (s s' : ViewModel) :
  keysData s' = keysData s -> derivedKeys s' = derivedKeys s ->
  rowsFromKeySet s -> rowsFromKeySet s'.
Proof. unfold rowsFromKeySet. intros -> -> H. exact H. Qed.

Lemma rows_refresh (s : ViewModel) : rowsFromKeySet s -> rowsFromKeySet (refreshDerivedKeys s).
Proof.
  intros H. destruct (keysData s) eqn:E.
  - apply rows_refresh_some. congruence.
  - unfold refreshDerivedKeys. now rewrite E.
Qed.

Lemma rows_summary (s : ViewModel) : rowsFromKeySet s -> rowsFromKeySet (refreshKeySummary s).
Proof.
  intros H. unfold refreshKeySummary. destruct (keysData s); [|exact H].
  eapply rows_ext; [reflexivity..|exact H].
Qed.

Ltac same_rows := eapply rows_ext; [reflexivity | reflexivity | assumption].

Lemma rows_step (co : Collaborators) (e : Event) (s : ViewModel) :
  rowsFromKeySet s -> rowsFromKeySet (step co e s).
Proof.
  intros H. step_cases e; simpl.
  - apply rows_summary, rows_refresh_some. simpl. congruence.
  - same_rows.
  - same_rows.
  - same_rows.
  - same_rows.
  - exact H.
  - same_rows.
  - eapply rows_ext; [reflexivity..|]. apply rows_refresh. same_rows.
  - same_rows.
  - same_rows.
  - unfold onRemoveKeySetConfirmationTap.
    destruct (removeSeedFn co (removeSeed s)); simpl; [same_rows | exact H].
  - unfold onDerivedKeyTap.
    destruct (isPresentingSelectionOverlay s); [same_rows|].
    destruct (navigateToPublicKey co (keyName s) (row_publicKeyDetails row)); [same_rows|exact H].
Qed.

(** In every state reachable from [init], each displayed row was built from
    a record of the key set stored at that moment: no row outlives the key
    set it came from. *)
Theorem rowsFromKeySet_reachable (co : Collaborators) (name : string) (kd : option MKeysNew)
  (alln sel : list MmNetwork) (evs : list Event) :
  rowsFromKeySet (run co evs (init name kd alln sel)).
Proof.
  assert (H0 : rowsFromKeySet (init name kd alln sel)).
  { rewrite init_unfold. apply rows_refresh. unfold updateRenderables.
    apply rows_summary, rows_refresh. intros r []. }
  revert H0. generalize (init name kd alln sel).
  induction evs as [|e evs IH]; simpl; intros s H; [exact H|].
  apply IH, rows_step, H.
Qed.

Lemma removeSeed_ext (s s' : ViewModel) :
  keySummary s' = keySummary s -> removeSeed s' = removeSeed s ->
  removeSeedMatchesSummary s -> removeSeedMatchesSummary s'.
Proof. unfold removeSeedMatchesSummary. intros -> -> H. exact H. Qed.

Lemma removeSeed_refresh (s : ViewModel) :
  removeSeedMatchesSummary s -> removeSeedMatchesSummary (refreshDerivedKeys s).
Proof.
  intros H. unfold refreshDerivedKeys. destruct (keysData s); [|exact H].
  eapply removeSeed_ext; [reflexivity..|exact H].
Qed.

Lemma removeSeed_summary (s : ViewModel) :
  removeSeedMatchesSummary s -> removeSeedMatchesSummary (refreshKeySummary s).
Proof.
  intros H. unfold refreshKeySummary. destruct (keysData s); [|exact H].
  unfold removeSeedMatchesSummary. reflexivity.
Qed.

Ltac same_seed := eapply removeSeed_ext; [reflexivity | reflexivity | assumption].

Lemma removeSeed_step (co : Collaborators) (e : Event) (s : ViewModel) :
  removeSeedMatchesSummary s -> removeSeedMatchesSummary (step co e s).
Proof.
  intros H. step_cases e; simpl.
  - unfold updateRenderables, refreshKeySummary. rewrite refreshDerivedKeys_keysData. simpl.
    unfold removeSeedMatchesSummary. reflexivity.
  - same_seed.
  - same_seed.
  - same_seed.
  - same_seed.
  - exact H.
  - same_seed.
  - eapply removeSeed_ext; [reflexivity..|]. apply removeSeed_refresh. same_seed.
  - same_seed.
  - same_seed.
  - unfold onRemoveKeySetConfirmationTap.
    destruct (removeSeedFn co (removeSeed s)); simpl; [same_seed | exact H].
  - unfold onDerivedKeyTap.
    destruct (isPresentingSelectionOverlay s); [same_seed|].
    destruct (navigateToPublicKey co (keyName s) (row_publicKeyDetails row)); [same_seed|exact H].
Qed.

(** In every state reachable from [init], the seed that a removal
    confirmation asks the seed mediator to remove is the key name shown in
    the key summary, and the empty name while no summary has been computed. *)
Theorem removeSeedMatchesSummary_reachable (co : Collaborators) (name : string)
  (kd : option MKeysNew) (alln sel : list MmNetwork) (evs : list Event) :
  removeSeedMatchesSummary (run co evs (init name kd alln sel)).
Proof.
  assert (H0 : removeSeedMatchesSummary (init name kd alln sel)).
  { rewrite init_unfold. apply removeSeed_refresh. unfold updateRenderables.
    apply removeSeed_summary, removeSeed_refresh. reflexivity. }
  revert H0. generalize (init name kd alln sel).
  induction evs as [|e evs IH]; simpl; intros s H; [exact H|].
  apply IH, removeSeed_step, H.
Qed.

(** ** What the events never do *)

Lemma step_frame (co : Collaborators) (e : Event) (s : ViewModel) :
  (isErrorCompletion e = false ->
   isPresentingError (step co e s) = isPresentingError s
   /\ presentableError (step co e s) = presentableError s)
  /\ (isPresentingSelectionOverlay s = false -> selectedKeys (step co e s) = selectedKeys s).
Proof.
  destruct e as [[ks|d]|[n|d]|[n|d]|[]|l|b| |row]; simpl.
  - split; auto.
  - split; [discriminate | auto].
  - split; auto.
  - split; [discriminate | auto].
  - split; auto.
  - split; auto.
  - split; auto.
  - unfold refreshDerivedKeys. simpl. destruct (keysData s); simpl; auto.
  - split; auto.
  - split; auto.
  - unfold onRemoveKeySetConfirmationTap.
    destruct (removeSeedFn co (removeSeed s)); simpl; auto.
  - unfold onDerivedKeyTap.
    destruct (isPresentingSelectionOverlay s) eqn:E.
    + split; [simpl; auto | discriminate].
    + destruct (navigateToPublicKey co (keyName s) (row_publicKeyDetails row)); simpl; auto.
Qed.


(** Outside selection mode no event changes [selectedKeys]; in particular
    leaving selection mode keeps the selection (it is not cleared). *)
Theorem selectedKeys_frozen_outside_selection (co : Collaborators) (e : Event) (s : ViewModel) :
  isPresentingSelectionOverlay s = false ->
  selectedKeys (step co e s) = selectedKeys s
  /\ selectedKeys (step co (SelectionOverlayPresented false) (set_isPresentingSelectionOverlay true s))
     = selectedKeys s.
Proof. intros H. split; [now apply step_frame | reflexivity]. Qed.

Lemma selectedKeys_frozen_outside_selection_witness :
  let s := init "Alice" (Some keysUnsorted) [] [] in
  let row := mkDerivedKeyRowModel (card "//0" networkA) in
  isPresentingSelectionOverlay s = false
  /\ selectedKeys (step noCollaborators (DerivedKeyTap row) s) = selectedKeys s.
Proof.
  intros s row.
  assert (H : isPresentingSelectionOverlay s = false) by reflexivity.
  split; [exact H|].
  exact (proj1 (selectedKeys_frozen_outside_selection noCollaborators (DerivedKeyTap row) s H)).
Defined.

(** ** Export model, root details and derived-key creation *)


(** After a successful fetch the root-key details show the root's seed name
    and base58 key (empty strings for a key set without root); a view-model
    built without key-set data shows empty strings. *)
Theorem rootKeyDetails_after_fetch (s : ViewModel) (ks : MKeysNew) :
  rootKeyDetails (refreshData_completion (success ks) s)
  = {| rk_name := match root ks with Some r => seedName (root_address r) | None => "" end;
       rk_publicKey := match root ks with Some r => root_base58 r | None => "" end |}
  /\ (forall name alln sel, rootKeyDetails (init name None alln sel)
                            = {| rk_name := ""; rk_publicKey := "" |}).
Proof.
  split; [|reflexivity].
  unfold rootKeyDetails, refreshData_completion, updateRenderables, refreshKeySummary.
  rewrite refreshDerivedKeys_keysData. simpl. destruct (root ks); reflexivity.
Qed.

(** [createDerivedKeyViewModel] traps exactly when no key set is stored (as
    right after [init] without key-set data); after a successful fetch it
    passes the fetched key set, the screen's key name and the root's seed
    name. *)
Theorem createDerivedKeyViewModel_spec (s : ViewModel) (ks : MKeysNew) :
  (createDerivedKeyViewModel s = None <-> keysData s = None)
  /\ createDerivedKeyViewModel (refreshData_completion (success ks) s)
     = Some {| ck_seedName := match root ks with Some r => seedName (root_address r) | None => "" end;
               ck_keyName := keyName s; ck_keySet := ks |}
  /\ (forall name alln sel, createDerivedKeyViewModel (init name None alln sel) = None).
Proof.
  split; [|split; [|reflexivity]].
  - unfold createDerivedKeyViewModel. destruct (keysData s); split; congruence.
  - reflexivity.
Qed.


(** ** Action sheet, backup and connectivity alert *)

(** [onActionSheetDismissal] consumes every pending request: afterwards no
    [shouldPresent...] flag is set, the removal confirmation and the selection
    overlay are toggled exactly when they were requested, and a second
    dismissal changes nothing. *)
Theorem onActionSheetDismissal_settles (co : ScreenCollaborators) (s : KeyDetailsScreen) :
  let s' := onActionSheetDismissal co s in
  shouldPresentRemoveConfirmationModal s' = false
  /\ shouldPresentBackupModal s' = false
  /\ shouldPresentSelectionOverlay s' = false
  /\ isShowingRemoveConfirmation s'
     = xorb (shouldPresentRemoveConfirmationModal s) (isShowingRemoveConfirmation s)
  /\ isPresentingSelectionOverlay (vm s')
     = xorb (shouldPresentSelectionOverlay s) (isPresentingSelectionOverlay (vm s))
  /\ onActionSheetDismissal co s' = s'.
Proof.
  destruct s as [v rc bk so shrc shbm ca rd dn bm sn snp rq].
  destruct rc, bk, so, (alert co) eqn:A; unfold onActionSheetDismissal; rewrite A; simpl;
    repeat split; try reflexivity; destruct shrc; reflexivity.
Qed.

(** A pending backup request on dismissal of the action sheet: with the
    connectivity warning up, only the connectivity alert is toggled and no
    backup is performed; without it, a [performBackupSeed] for the key name
    is requested, the backup modal is filled from the stored key set and
    shown. *)
Theorem onActionSheetDismissal_backup (co : ScreenCollaborators) (s : KeyDetailsScreen) :
  shouldPresentBackupModal s = true ->
  let s' := onActionSheetDismissal co s in
  (alert co = true ->
   isPresentingConnectivityAlert s' = negb (isPresentingConnectivityAlert s)
   /\ requests s' = requests s /\ backupModal s' = backupModal s
   /\ isShowingBackupModal s' = isShowingBackupModal s)
  /\ (alert co = false ->
      requests s' = (requests s ++ [performBackupSeed (keyName (vm s))])%list
      /\ backupModal s' = backupViewModel co (keysData (vm s))
      /\ isShowingBackupModal s' = true
      /\ isPresentingConnectivityAlert s' = isPresentingConnectivityAlert s).
Proof.
  destruct s as [v rc bk so shrc shbm ca rd dn bm sn snp rq]. simpl. intros ->.
  split; intros A; unfold onActionSheetDismissal; rewrite A;
    destruct rc, so; simpl; auto.
Qed.

Lemma onActionSheetDismissal_backup_witness :
  let co := {| alert := false; backupViewModel := fun _ => None |} in
  let s := setx_shouldPresentBackupModal true (initialScreen (init "Alice" (Some keysUnsorted) [] [])) in
  shouldPresentBackupModal s = true
  /\ requests (onActionSheetDismissal co s) = [performBackupSeed "Alice"].
Proof.
  intros co s.
  assert (H : shouldPresentBackupModal s = true) by reflexivity.
  split; [exact H|].
  assert (A : alert co = false) by reflexivity.
  exact (proj1 (proj2 (onActionSheetDismissal_backup co s H) A)).
Defined.



(** ** Completion handlers of the child screens *)

(** After a derived key is deleted or created, the view-model requests the key
    set again and shows a snackbar (warning style after a deletion, info
    after a creation) at once; the rows stay as they are until the fetch
    completes, and then are the projection of the fetched key set. *)
Theorem childCompletion_refresh (s : KeyDetailsScreen) (ks : MKeysNew) :
  let s1 := onPublicKeyCompletion derivedKeyDeleted s in
  let s2 := onAddDerivedKeyCompletion derivedKeyCreated s in
  vm s1 = vm s /\ isSnackbarPresented s1 = true
  /\ snackbarViewModel s1
     = {| sn_title := PublicKeyDetailsModal_Confirmation_snackbar; sn_style := warning |}
  /\ requests s1 = (requests s ++ [getKeys (keyName (vm s))])%list
  /\ vm s2 = vm s /\ isSnackbarPresented s2 = true
  /\ snackbarViewModel s2 = {| sn_title := CreateDerivedKey_Snackbar_created; sn_style := info |}
  /\ requests s2 = (requests s ++ [getKeys (keyName (vm s))])%list
  /\ derivedKeys (refreshData_completion (success ks) (vm s1))
     = projectDerivedKeys (selectedNetworks (vm s)) (set ks).
Proof. simpl. repeat split. Qed.
